(** * Customer 360 dashboard: segmentation, at-risk selection and the
      error handling around the warehouse and the AI summary

    Shallow embedding of [SNOWFLAKE_CUSTOMER360_APP.py].

    Conventions of the embedding.
    - A Python/NumPy float is [pyfloat]: a rational, one of the two
      infinities, or NaN.  Arithmetic on the finite part is exact; a decimal
      literal such as [-0.3] is read as the rational it writes.
    - A pandas frame is the list of its rows, in index order; a column is
      the list of the cells of that field.
    - A Python call that can raise returns a [result]; Streamlit calls
      append to a log of rendered widgets. *)

From Stdlib Require Import String Ascii List Bool Arith ZArith QArith Lia Lqa.
From Stdlib Require Import DecimalString Sorting.Sorted Sorting.Permutation.
From Stdlib Require Import Structures.OrderedTypeEx.
Import ListNotations.

Local Open Scope string_scope.
Local Open Scope list_scope.
Local Open Scope nat_scope.

(* ===================================================================== *)
(** ** Floats *)
(* ===================================================================== *)

Module PyFloat.

Inductive pyfloat : Type :=
| Fin (q : Q)
| PInf
| NInf
| NaN.

Definition Qltb (a b : Q) : bool :=
  (Qnum a * QDen b <? Qnum b * QDen a)%Z.

(** [x < y] on floats: every comparison with NaN is false. *)
Definition flt (x y : pyfloat) : bool :=
  match x, y with
  | NaN, _ | _, NaN => false
  | Fin a, Fin b => Qltb a b
  | NInf, Fin _ | NInf, PInf | Fin _, PInf => true
  | _, _ => false
  end.

(** [x > y] is [y < x]. *)
Definition fgt (x y : pyfloat) : bool := flt y x.

Definition isnan (x : pyfloat) : bool :=
  match x with NaN => true | _ => false end.

Definition fadd (x y : pyfloat) : pyfloat :=
  match x, y with
  | NaN, _ | _, NaN => NaN
  | Fin a, Fin b => Fin (a + b)
  | PInf, NInf | NInf, PInf => NaN
  | PInf, _ | _, PInf => PInf
  | NInf, _ | _, NInf => NInf
  end.

(** Division of a float by a positive count. *)
Definition fdiv_count (x : pyfloat) (n : nat) : pyfloat :=
  match x with
  | Fin a => Fin (a / inject_Z (Z.of_nat n))
  | other => other
  end.

Definition fsum (xs : list pyfloat) : pyfloat :=
  fold_left fadd xs (Fin 0).

(** [Series.mean()]: NaN cells are skipped; with no cell left the mean
    is NaN. *)
Definition mean (xs : list pyfloat) : pyfloat :=
  let vals := filter (fun x => negb (isnan x)) xs in
  match vals with
  | [] => NaN
  | _ :: _ => fdiv_count (fsum vals) (length vals)
  end.

Definition Flt (x y : pyfloat) : Prop := flt x y = true.
Definition Fgt (x y : pyfloat) : Prop := fgt x y = true.

End PyFloat.
Import PyFloat.

Notation "x <f y" := (Flt x y) (at level 70, no associativity).
Notation "x >f y" := (Fgt x y) (at level 70, no associativity).

(* ===================================================================== *)
(** ** Exceptions *)
(* ===================================================================== *)

(** The exceptions the modelled code can meet.  [KeyboardInterrupt] and
    [SystemExit] derive from [BaseException] only: [except Exception] lets
    them through, a bare [except:] catches them. *)
Inductive exn : Type :=
| ZeroDivisionError
| SnowparkSQLException (msg : string)
| IndexError
| OtherException (name : string)
| KeyboardInterrupt
| SystemExit.

Definition is_Exception (e : exn) : bool :=
  match e with
  | KeyboardInterrupt | SystemExit => false
  | _ => true
  end.

Inductive result (A : Type) : Type :=
| Ok (a : A)
| Raise (e : exn).
Arguments Ok {A} a.
Arguments Raise {A} e.

(* ===================================================================== *)
(** ** The record set and the per-customer table *)
(* ===================================================================== *)

(** One row of [email_data] (the columns the modelled code reads). *)
Module Email.
Record t : Type := mk {
  EMAIL_ID : string;
  CUSTOMER_ID : string;
  CUSTOMER_NAME : string;
  EMAIL_CLASSIFICATION : string;
  SENTIMENT_SCORE : pyfloat;
  ESCALATION_NEEDED : bool;
  RESPONSE_URGENCY : string;
  EXECUTIVE_SUMMARY : string;
  NEXT_STEPS : string
}.
End Email.

(** [email_data].  The rows come with the dtype pandas gave the
    [ESCALATION_NEEDED] column: [bool] when the warehouse column had no
    NULL, [object] otherwise (and possibly for a frame loaded with no row).
    The dtype decides what kind of integer [Series.sum()] returns. *)
Inductive dtype : Type := dtype_bool | dtype_object.

Module Frame.
Record t : Type := mk {
  rows : list Email.t;
  escalation_dtype : dtype
}.

Definition len (df : t) : nat := length (rows df).

(** [df[mask]]: the rows that pass, in order; dtypes are kept. *)
Definition select (f : Email.t -> bool) (df : t) : t :=
  mk (filter f (rows df)) (escalation_dtype df).
End Frame.

(** One row of [customer_segments] after the columns are renamed. *)
Module Seg.
Record row : Type := mk {
  CUSTOMER_ID : string;
  AVG_SENTIMENT : pyfloat;
  TOTAL_ESCALATIONS : nat;
  TOTAL_EMAILS : nat;
  URGENT_EMAILS : nat
}.
End Seg.

(** [categorize_customer], lines 659-667. *)
Definition categorize_customer (row : Seg.row) : string :=
  if (2 <? Seg.TOTAL_ESCALATIONS row)%nat || flt (Seg.AVG_SENTIMENT row) (Fin (-3 # 10)) then
    "🔴 High Risk"
  else if fgt (Seg.AVG_SENTIMENT row) (Fin (3 # 10)) && (Seg.TOTAL_ESCALATIONS row =? 0)%nat then
    "🟢 Champions"
  else if (1 <? Seg.URGENT_EMAILS row)%nat then
    "🟡 Needs Attention"
  else
    "🔵 Standard".

(* ===================================================================== *)
(** ** Group-by and aggregation (lines 649-656) *)
(* ===================================================================== *)

(** [groupby] runs with its defaults, [sort=True]: the group keys come out
    unique and in ascending order.  Python orders [str] by code point, which
    is the byte order of [String.compare] on UTF-8. *)
Fixpoint insert_key (k : string) (ks : list string) : list string :=
  match ks with
  | [] => [k]
  | k' :: ks' =>
      match String.compare k k' with
      | Lt => k :: ks
      | Eq => ks
      | Gt => k' :: insert_key k ks'
      end
  end.

Definition sorted_unique (ks : list string) : list string :=
  fold_right insert_key [] ks.

(** Strictly below, in the order the keys are sorted by. *)
Definition key_lt (a b : string) : Prop := String.compare a b = Lt.

(** A group holds the rows of its key, in the order of the frame. *)
Definition groupby (key : Email.t -> string) (rows : list Email.t)
  : list (string * list Email.t) :=
  map (fun k => (k, filter (fun r => String.eqb (key r) k) rows))
      (sorted_unique (map key rows)).

(** ['sum'] of a boolean column. *)
Definition sum_bool (col : list bool) : nat :=
  length (filter (fun b => b) col).

(** ['count']: the cells that are not null; the identifier column has no
    null cell, so every cell counts. *)
Definition count {A : Type} (col : list A) : nat := length col.

(** [lambda x: (x == 'immediate').sum()]. *)
Definition urgent_sum (col : list string) : nat :=
  sum_bool (map (fun u => String.eqb u "immediate") col).

Definition agg (g : string * list Email.t) : Seg.row :=
  let rows := snd g in
  {| Seg.CUSTOMER_ID := fst g;
     Seg.AVG_SENTIMENT := mean (map Email.SENTIMENT_SCORE rows);
     Seg.TOTAL_ESCALATIONS := sum_bool (map Email.ESCALATION_NEEDED rows);
     Seg.TOTAL_EMAILS := count (map Email.EMAIL_ID rows);
     Seg.URGENT_EMAILS := urgent_sum (map Email.RESPONSE_URGENCY rows) |}.

Definition customer_segments (email_data : Frame.t) : list Seg.row :=
  map agg (groupby Email.CUSTOMER_ID (Frame.rows email_data)).

(** [customer_segments.apply(categorize_customer, axis=1)]: the function is
    called on each row of the table, in order. *)
Definition segment_column (table : list Seg.row) : list string :=
  map categorize_customer table.

(** The mask of lines 704-707. *)
Definition at_risk_mask (row : Seg.row) : bool :=
  flt (Seg.AVG_SENTIMENT row) (Fin 0) || (1 <? Seg.TOTAL_ESCALATIONS row)%nat.

Definition at_risk_customers (table : list Seg.row) : list string :=
  map Seg.CUSTOMER_ID (filter at_risk_mask table).

(* ===================================================================== *)
(** ** Streamlit: a log of rendered widgets, with exceptions *)
(* ===================================================================== *)

Inductive widget : Type :=
| Markdown (body : string)
| Info (body : string)
| Warning (body : string)
(** An expander, with the lines written inside it. *)
| Expander (label : string) (inner : list string)
(** The pie chart and the per-segment metrics of lines 672-698, which are
    drawn from the table and its [SEGMENT] column. *)
| SegmentCharts (table : list Seg.row) (segment : list string).

Module St.

(** A computation reads the log so far and returns its outcome with the
    log it leaves; what was rendered before a [raise] stays rendered. *)
Definition t (A : Type) : Type := list widget -> result A * list widget.

Definition ret {A : Type} (a : A) : t A := fun log => (Ok a, log).

Definition bind {A B : Type} (m : t A) (k : A -> t B) : t B :=
  fun log =>
    match m log with
    | (Ok a, log') => k a log'
    | (Raise e, log') => (Raise e, log')
    end.

Definition raise {A : Type} (e : exn) : t A := fun log => (Raise e, log).

Definition lift {A : Type} (r : result A) : t A := fun log => (r, log).

Definition emit (w : widget) : t unit := fun log => (Ok tt, log ++ [w]).

(** [try: body / except Exception as e: handler]. *)
Definition try_except_Exception {A : Type} (body : t A) (handler : exn -> t A) : t A :=
  fun log =>
    match body log with
    | (Ok a, log') => (Ok a, log')
    | (Raise e, log') =>
        if is_Exception e then handler e log' else (Raise e, log')
    end.

(** [for x in xs: body(x)]. *)
Fixpoint for_each {A : Type} (xs : list A) (body : A -> t unit) : t unit :=
  match xs with
  | [] => ret tt
  | x :: xs' => bind (body x) (fun _ => for_each xs' body)
  end.

Definition run {A : Type} (m : t A) : result A * list widget := m [].

End St.

Notation "x <- m ;; k" := (St.bind m (fun x => k))
  (at level 61, m at next level, right associativity).
Notation "m ;;; k" := (St.bind m (fun _ => k))
  (at level 61, right associativity).

Definition st_markdown (body : string) : St.t unit := St.emit (Markdown body).
Definition st_info (body : string) : St.t unit := St.emit (Info body).
Definition st_warning (body : string) : St.t unit := St.emit (Warning body).

(** [f"{n}"] for a non-negative integer. *)
Definition str_nat (n : nat) : string :=
  NilZero.string_of_uint (Nat.to_uint n).

(* ===================================================================== *)
(** ** The summary of the AI-insights view (lines 593-643) *)
(* ===================================================================== *)

(** What [Series.sum()] returns: a NumPy scalar for a [bool] column, a
    Python [int] for an [object] column. *)
Inductive pyint : Type :=
| NpInt64 (n : nat)
| PyInt (n : nat).

Definition series_sum (d : dtype) (col : list bool) : pyint :=
  match d with
  | dtype_bool => NpInt64 (sum_bool col)
  | dtype_object => PyInt (sum_bool col)
  end.

(** [a / n] with [n = len(...)].  By zero, Python's [int] raises and a NumPy
    scalar yields NaN (for 0/0) or infinity, with a warning only. *)
Definition true_divide (a : pyint) (n : nat) : result pyfloat :=
  match n with
  | O =>
      match a with
      | PyInt _ => Raise ZeroDivisionError
      | NpInt64 O => Ok NaN
      | NpInt64 (S _) => Ok PInf
      end
  | S _ =>
      let k := match a with NpInt64 k | PyInt k => k end in
      Ok (Fin (inject_Z (Z.of_nat k) / inject_Z (Z.of_nat n)))
  end.

(** [x * 100]. *)
Definition times_100 (x : pyfloat) : pyfloat :=
  match x with
  | Fin q => Fin (q * 100)
  | other => other
  end.

(** [summary_data]; the [top_issues] entry feeds only the prompt, which is
    never sent, and is left out. *)
Record summary : Type := mk_summary {
  total_emails : nat;
  avg_sentiment : pyfloat;
  escalation_rate : pyfloat;
  urgent_responses : nat
}.

Definition summary_data (email_data : Frame.t) : result summary :=
  let rows := Frame.rows email_data in
  let total := Frame.len email_data in
  let avg := mean (map Email.SENTIMENT_SCORE rows) in
  match true_divide
          (series_sum (Frame.escalation_dtype email_data)
                      (map Email.ESCALATION_NEEDED rows))
          (Frame.len email_data) with
  | Raise e => Raise e
  | Ok rate =>
      Ok {| total_emails := total;
            avg_sentiment := avg;
            escalation_rate := times_100 rate;
            urgent_responses :=
              Frame.len
                (Frame.select
                   (fun r => String.eqb (Email.RESPONSE_URGENCY r) "immediate")
                   email_data) |}
  end.

(** The mock response of lines 620-638. *)
Definition ai_insights : string :=
"
            ## Key Customer Insights:

            **Customer Satisfaction Analysis:**
            - Overall sentiment indicates moderate customer satisfaction with room for improvement
            - Escalation rate suggests need for enhanced first-contact resolution
            - Communication volume shows active customer engagement

            **Priority Recommendations:**
            1. **Immediate Actions**: Address urgent response communications within 24 hours
            2. **Process Improvement**: Implement proactive communication for technical issues
            3. **Training Focus**: Enhance team skills for handling complex inquiries
            4. **Technology**: Leverage AI insights for predictive customer service

            **Strategic Opportunities:**
            - Develop customer success programs for high-value accounts
            - Create knowledge base for common technical issues
            - Implement sentiment-based routing for critical communications
            ".

Definition fallback_notice : string :=
  "AI analysis temporarily unavailable. Showing manual insights.".

(** The body of the [try]: the summary is computed, then the mock response
    is rendered. *)
Definition ai_summary_body (email_data : Frame.t) : St.t unit :=
  _ <- St.lift (summary_data email_data) ;;
  st_markdown ai_insights.

(** The [try]/[except Exception] statement around a body. *)
Definition guarded (body : St.t unit) : St.t unit :=
  St.try_except_Exception body (fun _ => st_info fallback_notice).

Definition ai_summary_block (email_data : Frame.t) : St.t unit :=
  guarded (ai_summary_body email_data).

(* ===================================================================== *)
(** ** The rest of [show_ai_insights] (lines 645-722) *)
(* ===================================================================== *)

(** [series.iloc[0]]. *)
Definition iloc0 {A : Type} (col : list A) : result A :=
  match col with
  | [] => Raise IndexError
  | x :: _ => Ok x
  end.

Definition at_risk_expander (at_risk_details : Frame.t) (customer_id : string)
  : St.t unit :=
  let customer_data :=
    Frame.select (fun r => String.eqb (Email.CUSTOMER_ID r) customer_id)
                 at_risk_details in
  customer_name <-
    (match map Email.CUSTOMER_NAME (Frame.rows customer_data) with
     | [] => St.ret "Unknown"
     | name :: _ => St.ret name
     end) ;;
  latest_issue <- St.lift (iloc0 (Frame.rows customer_data)) ;;
  St.emit
    (Expander
       ("🚨 " ++ customer_name ++ " (ID: " ++ customer_id ++ ")")%string
       [ ("**Latest Issue:** " ++ Email.EMAIL_CLASSIFICATION latest_issue)%string;
         ("**Summary:** " ++ Email.EXECUTIVE_SUMMARY latest_issue)%string;
         ("**Recommended Action:** " ++ Email.NEXT_STEPS latest_issue)%string ]).

Definition segmentation_section (email_data : Frame.t) : St.t unit :=
  st_markdown "### 🎯 AI-Powered Customer Segmentation" ;;;
  let table := customer_segments email_data in
  let segment := segment_column table in
  St.emit (SegmentCharts table segment) ;;;
  st_markdown "### 🔮 Predictive Customer Insights" ;;;
  let at_risk := at_risk_customers table in
  match at_risk with
  | [] => St.ret tt
  | _ :: _ =>
      let at_risk_details :=
        Frame.select
          (fun r => existsb (String.eqb (Email.CUSTOMER_ID r)) at_risk)
          email_data in
      st_warning ("⚠️ " ++ str_nat (length at_risk)
                  ++ " customers identified as at-risk for churn")%string ;;;
      St.for_each (firstn 5 at_risk) (at_risk_expander at_risk_details)
  end.

Definition show_ai_insights (email_data : Frame.t) : St.t unit :=
  st_markdown "## 🤖 AI-Powered Customer Insights" ;;;
  st_markdown "### 🧠 Executive AI Summary" ;;;
  ai_summary_block email_data ;;;
  segmentation_section email_data.

(* ===================================================================== *)
(** ** The executive dashboard's rate (lines 290-294) *)
(* ===================================================================== *)

(** The row returned by [get_customer_summary_stats]: SQL counts, read as
    Python [int]s. *)
Module Stats.
Record t : Type := mk {
  TOTAL_CUSTOMERS : nat;
  TOTAL_EMAILS : nat;
  ESCALATIONS_NEEDED : nat;
  NEGATIVE_SENTIMENT : nat;
  POSITIVE_SENTIMENT : nat
}.
End Stats.

Definition dashboard_escalation_rate (summary_stats : Stats.t) : result pyfloat :=
  match true_divide (PyInt (Stats.ESCALATIONS_NEEDED summary_stats))
                    (Stats.TOTAL_EMAILS summary_stats) with
  | Raise e => Raise e
  | Ok x => Ok (times_100 x)
  end.

(* ===================================================================== *)
(** ** Customer search (lines 143-165 and 381-403) *)
(* ===================================================================== *)

Module Search.
(** One row of the result of the search query. *)
Record hit : Type := mk_hit {
  EMAIL_ID : string;
  CUSTOMER_ID : string;
  CUSTOMER_NAME : string;
  EMAIL_CLASSIFICATION : string;
  SENTIMENT_CATEGORY : string;
  EXECUTIVE_SUMMARY : string;
  DATE_RECEIVED : string
}.

Record frame : Type := mk {
  columns : list string;
  rows : list hit
}.

(** [pd.DataFrame()]: no column, no row. *)
Definition pd_DataFrame : frame := mk [] [].

(** [df.empty]: some axis has length 0. *)
Definition empty (df : frame) : bool :=
  (length (columns df) =? 0)%nat || (length (rows df) =? 0)%nat.
End Search.

Definition dquote : string := String (ascii_of_nat 34) EmptyString.

(** The f-string of lines 146-162. *)
Definition search_query (search_term : string) : string :=
  ("
        SELECT 
            EMAIL_ID,
            CUSTOMER_ID,
            CUSTOMER_NAME,
            EMAIL_CLASSIFICATION,
            SENTIMENT_CATEGORY,
            EXECUTIVE_SUMMARY,
            DATE_RECEIVED
        FROM " ++ dquote ++ "2025-06-23T16-21_EXPORT" ++ dquote ++ "
        WHERE 
            CUSTOMER_NAME ILIKE '%" ++ search_term ++ "%' 
            OR CUSTOMER_ID ILIKE '%" ++ search_term ++ "%'
            OR EMAIL_CONTENTS ILIKE '%" ++ search_term ++ "%'
        ORDER BY DATE_RECEIVED DESC
        LIMIT 10
        ")%string.

(** [needle in hay]. *)
Definition contains (needle hay : string) : bool :=
  match String.index 0 needle hay with
  | Some _ => true
  | None => false
  end.

Section Warehouse.

(** [session.sql(query).to_pandas()]: the warehouse answers with a frame or
    raises. *)
Variable session_sql : string -> result Search.frame.

(** The bare [except:] catches whatever is raised. *)
Definition search_customers (search_term : string) : Search.frame :=
  match session_sql (search_query search_term) with
  | Ok df => df
  | Raise _ => Search.pd_DataFrame
  end.

Definition search_hit_expander (hit : Search.hit) : St.t unit :=
  let category := Search.SENTIMENT_CATEGORY hit in
  let sentiment_class :=
    if contains "Positive" category then "sentiment-positive"
    else if contains "Negative" category then "sentiment-negative"
    else "sentiment-neutral" in
  St.emit
    (Expander
       ("📧 " ++ Search.CUSTOMER_NAME hit ++ " - "
        ++ Search.EMAIL_CLASSIFICATION hit
        ++ " (" ++ Search.DATE_RECEIVED hit ++ ")")%string
       [ ("**Summary:** " ++ Search.EXECUTIVE_SUMMARY hit)%string;
         ("**Sentiment:** <span class='" ++ sentiment_class ++ "'>"
          ++ category ++ "</span>")%string;
         ("**Customer ID:** " ++ Search.CUSTOMER_ID hit)%string ]).

(** The caller, [show_customer_search], lines 381-403. *)
Definition search_section (search_term : string) : St.t unit :=
  match search_term with
  | EmptyString => St.ret tt
  | String _ _ =>
      let search_results := search_customers search_term in
      if negb (Search.empty search_results) then
        st_markdown ("### Found "
                     ++ str_nat (length (Search.rows search_results))
                     ++ " results")%string ;;;
        St.for_each (Search.rows search_results) search_hit_expander
      else
        st_info "No results found. Try different search terms."
  end.

End Warehouse.

(* ===================================================================== *)
(** ** The specification's vocabulary *)
(* ===================================================================== *)

(** The four segments, and the label the code gives each. *)
Inductive Segment : Type := HighRisk | Champion | NeedsAttention | Standard.

Definition segment_label (s : Segment) : string :=
  match s with
  | HighRisk => "🔴 High Risk"
  | Champion => "🟢 Champions"
  | NeedsAttention => "🟡 Needs Attention"
  | Standard => "🔵 Standard"
  end.

(** The decision rule as the specification words it: four rules, each
    guarded by the failure of the ones before it. *)
Definition high_risk_rule (r : Seg.row) : Prop :=
  2 < Seg.TOTAL_ESCALATIONS r \/ Seg.AVG_SENTIMENT r <f Fin (-3 # 10).

Definition champion_rule (r : Seg.row) : Prop :=
  Seg.AVG_SENTIMENT r >f Fin (3 # 10) /\ Seg.TOTAL_ESCALATIONS r = 0.

Definition needs_attention_rule (r : Seg.row) : Prop :=
  1 < Seg.URGENT_EMAILS r.

Inductive segment_spec (r : Seg.row) : Segment -> Prop :=
| spec_high_risk :
    high_risk_rule r -> segment_spec r HighRisk
| spec_champion :
    ~ high_risk_rule r -> champion_rule r -> segment_spec r Champion
| spec_needs_attention :
    ~ high_risk_rule r -> ~ champion_rule r -> needs_attention_rule r ->
    segment_spec r NeedsAttention
| spec_standard :
    ~ high_risk_rule r -> ~ champion_rule r -> ~ needs_attention_rule r ->
    segment_spec r Standard.

(** The at-risk condition as the specification words it. *)
Definition at_risk_rule (r : Seg.row) : Prop :=
  Seg.AVG_SENTIMENT r <f Fin 0 \/ 1 < Seg.TOTAL_ESCALATIONS r.

(** Encounter order, as the specification words the order of the at-risk
    list: the customers in the order in which the record set first shows
    them. *)
Fixpoint first_occurrences (seen ks : list string) : list string :=
  match ks with
  | [] => []
  | k :: ks' =>
      if existsb (String.eqb k) seen then first_occurrences seen ks'
      else k :: first_occurrences (k :: seen) ks'
  end.

Definition encounter_order (email_data : Frame.t) : list string :=
  first_occurrences [] (map Email.CUSTOMER_ID (Frame.rows email_data)).

Definition at_risk_in_encounter_order (email_data : Frame.t) : list string :=
  filter (fun k => existsb (String.eqb k)
                     (at_risk_customers (customer_segments email_data)))
         (encounter_order email_data).

(** An outcome that reports an error to the caller. *)
Definition raises_to_caller {A : Type} (out : result A * list widget) : Prop :=
  exists e : exn, fst out = Raise e.

(** A computation that only appends to the log: its outcome and what it
    renders do not depend on what was rendered before. *)
Definition appends {A : Type} (m : St.t A) : Prop :=
  forall log : list widget, m log = (fst (m []), log ++ snd (m [])).

(** The customers of one segment, line 693:
    [customer_segments[customer_segments['SEGMENT'] == segment]]. *)
Definition segment_members (segment : string) (table : list Seg.row)
  : list string :=
  map Seg.CUSTOMER_ID
      (filter (fun r => String.eqb (categorize_customer r) segment) table).

(* ===================================================================== *)
(** ** A sample record set *)
(* ===================================================================== *)

(** Four emails of three customers, most recent first. *)
Definition sample_rows : list Email.t :=
  [ Email.mk "E-104" "C-003" "Bo Lindqvist" "Complaint" (Fin (-1 # 2)) true
             "immediate" "Engine fault after service" "Call back today";
    Email.mk "E-103" "C-001" "Ann Okafor" "Compliment" (Fin (9 # 10)) false
             "low" "Praises the delivery team" "Send thanks";
    Email.mk "E-102" "C-003" "Bo Lindqvist" "Complaint" (Fin (-1 # 10)) true
             "immediate" "Still waiting for parts" "Escalate to workshop";
    Email.mk "E-101" "C-002" "Cy Tanaka" "Inquiry" (Fin (-1 # 100)) false
             "standard" "Asks about warranty terms" "Send brochure" ].

Definition sample_data : Frame.t := Frame.mk sample_rows dtype_bool.

(* ===================================================================== *)
(** ** Further columns and counts *)
(* ===================================================================== *)

(** [Series.unique()]: the distinct values, in order of first appearance. *)
Definition unique (col : list string) : list string :=
  first_occurrences [] col.

(** [Series.nunique()], line 286. *)
Definition nunique (col : list string) : nat := length (unique col).

(** The count columns of the per-customer table, side by side. *)
Definition count_columns (table : list Seg.row)
  : list (string * nat * nat * nat) :=
  map (fun r => (Seg.CUSTOMER_ID r, Seg.TOTAL_ESCALATIONS r,
                 Seg.TOTAL_EMAILS r, Seg.URGENT_EMAILS r))
      table.


(* ===================================================================== *)
(** ** The executive dashboard (lines 297-303 and 349-355) *)
(* ===================================================================== *)


(** The mask of lines 350-351. *)
Definition priority_mask (email : Email.t) : bool :=
  Email.ESCALATION_NEEDED email
  || String.eqb (Email.RESPONSE_URGENCY email) "immediate".

(** [email_data[mask].head(5)]. *)
Definition priority_emails (email_data : Frame.t) : list Email.t :=
  firstn 5 (filter priority_mask (Frame.rows email_data)).

Definition priority_class (email : Email.t) : string :=
  if Email.ESCALATION_NEEDED email then "priority-high" else "priority-medium".

(* ===================================================================== *)
(** ** The sidebar filters of [main] (lines 231-254) *)
(* ===================================================================== *)

(** [t[i]] on a tuple. *)
Definition tuple_get {A : Type} (t : list A) (i : nat) : result A :=
  match nth_error t i with
  | Some x => Ok x
  | None => Raise IndexError
  end.

Section Sidebar.

(** The filters read two columns of the full record; the record type is
    left open.  [DATE_RECEIVED] gives the calendar day of the timestamp
    ([.dt.date], [.date()]) as a day number. *)
Variable row : Type.
Variable DATE_RECEIVED : row -> Z.
Variable SENTIMENT_CATEGORY : row -> string.

(** Lines 241-244, with the tuple that [st.date_input] returned. *)
Definition date_filter (date_range : list Z) (email_data : list row)
  : result (list row) :=
  match tuple_get date_range 0 with
  | Raise e => Raise e
  | Ok first =>
      match tuple_get date_range 1 with
      | Raise e => Raise e
      | Ok last =>
          Ok (filter (fun r => (first <=? DATE_RECEIVED r)%Z
                               && (DATE_RECEIVED r <=? last)%Z)
                     email_data)
      end
  end.

(** Lines 253-254: an empty selection is falsy and filters nothing. *)
Definition sentiment_filtered (sentiment_filter : list string)
           (email_data : list row) : list row :=
  match sentiment_filter with
  | [] => email_data
  | _ :: _ =>
      filter (fun r => existsb (String.eqb (SENTIMENT_CATEGORY r)) sentiment_filter)
             email_data
  end.

(** [series.min()] and [series.max()] of a column with a first cell. *)
Definition series_min (x : Z) (xs : list Z) : Z := fold_left Z.min xs x.
Definition series_max (x : Z) (xs : list Z) : Z := fold_left Z.max xs x.

(** The two filters in the order [main] applies them.  [date_input] is the
    widget: it is given the default selection, the first and the last day
    of the data, and returns the selection of the user. *)
Definition sidebar_filters (date_input : Z * Z -> list Z)
           (sentiment_filter : list string) (email_data : list row)
  : result (list row) :=
  let dated :=
    match email_data with
    | [] => Ok email_data
    | r :: rs =>
        let days := map DATE_RECEIVED rs in
        let date_range :=
          date_input (series_min (DATE_RECEIVED r) days,
                      series_max (DATE_RECEIVED r) days) in
        date_filter date_range email_data
    end in
  match dated with
  | Raise e => Raise e
  | Ok email_data' => Ok (sentiment_filtered sentiment_filter email_data')
  end.

End Sidebar.

Arguments date_filter {row}.
Arguments sentiment_filtered {row}.
Arguments sidebar_filters {row}.

(** The selection the date widget starts with: its [value]. *)
Definition default_date_input (value : Z * Z) : list Z :=
  [fst value; snd value].

(* ===================================================================== *)
(** ** The customer profile (lines 433-465) *)
(* ===================================================================== *)

(** [sorted(xs)] on strings: ascending, equal strings kept side by side. *)
Fixpoint sorted_insert (k : string) (ks : list string) : list string :=
  match ks with
  | [] => [k]
  | k' :: ks' =>
      if String.leb k k' then k :: ks else k' :: sorted_insert k ks'
  end.

Definition sorted (xs : list string) : list string :=
  fold_right sorted_insert [] xs.

(** Below or equal, in the order [sorted] sorts by. *)
Definition key_le (a b : string) : Prop := String.leb a b = true.

(** The options of the selector, lines 434-435 (the name column has no
    null cell for [dropna] to remove). *)
Definition customers (email_data : Frame.t) : list string :=
  sorted (unique (map Email.CUSTOMER_NAME (Frame.rows email_data))).


Module Profile.
Record t : Type := mk {
  customer_id : string;
  total_communications : nat;
  avg_sentiment : pyfloat;
  escalations : pyint
}.
End Profile.

Definition customer_emails (email_data : Frame.t) (selected_customer : string)
  : Frame.t :=
  Frame.select
    (fun r => String.eqb (Email.CUSTOMER_NAME r) selected_customer)
    email_data.

(** The figures of the profile header and of its metrics.  The selector
    returns one of its options, or [None] when it has none; a falsy
    selection renders no profile. *)
Definition customer_profile (email_data : Frame.t)
           (selected_customer : option string) : result (option Profile.t) :=
  match selected_customer with
  | None | Some EmptyString => Ok None
  | Some name =>
      let emails := customer_emails email_data name in
      match iloc0 (map Email.CUSTOMER_ID (Frame.rows emails)) with
      | Raise e => Raise e
      | Ok customer_id =>
          Ok (Some
                {| Profile.customer_id := customer_id;
                   Profile.total_communications := Frame.len emails;
                   Profile.avg_sentiment :=
                     mean (map Email.SENTIMENT_SCORE (Frame.rows emails));
                   Profile.escalations :=
                     series_sum (Frame.escalation_dtype emails)
                                (map Email.ESCALATION_NEEDED (Frame.rows emails)) |})
      end
  end.

(* ===================================================================== *)
(** ** Sentiment by urgency (line 555) *)
(* ===================================================================== *)


(* ===================================================================== *)
(** * Properties *)
(* ===================================================================== *)

(** ** Comparisons *)

Lemma Qltb_spec (a b : Q) : Qltb a b = true <-> (a < b)%Q.
Proof. unfold Qltb, Qlt. apply Z.ltb_lt. Qed.

Lemma flt_Fin (a b : Q) : Fin a <f Fin b <-> (a < b)%Q.
Proof. unfold Flt. simpl. apply Qltb_spec. Qed.

Lemma flt_NaN_l (y : pyfloat) : ~ NaN <f y.
Proof. unfold Flt. destruct y; simpl; discriminate. Qed.

Lemma flt_NaN_r (x : pyfloat) : ~ x <f NaN.
Proof. unfold Flt. destruct x; simpl; discriminate. Qed.

(** On finite thresholds [<] is transitive, whatever the left operand. *)
Lemma flt_trans_Fin (x : pyfloat) (a b : Q) :
  x <f Fin a -> (a < b)%Q -> x <f Fin b.
Proof.
  unfold Flt. destruct x as [q | | |]; simpl; intros H Hab; try easy.
  apply Qltb_spec. apply Qltb_spec in H. eapply Qlt_trans; eassumption.
Qed.

Lemma flt_irrefl_Qeq (q t : Q) : (q == t)%Q -> ~ Fin q <f Fin t.
Proof.
  intros E H. apply flt_Fin in H. rewrite E in H. exact (Qlt_irrefl _ H).
Qed.

(** ** The labels *)

Lemma segment_label_inj (s t : Segment) :
  segment_label s = segment_label t -> s = t.
Proof. destruct s, t; simpl; intro H; solve [reflexivity | discriminate H]. Qed.

(** The Boolean tests of [categorize_customer] decide the three rules. *)
Lemma high_risk_rule_iff (r : Seg.row) :
  high_risk_rule r <->
  (2 <? Seg.TOTAL_ESCALATIONS r) || flt (Seg.AVG_SENTIMENT r) (Fin (-3 # 10)) = true.
Proof.
  unfold high_risk_rule, Flt. rewrite orb_true_iff, Nat.ltb_lt. reflexivity.
Qed.

Lemma champion_rule_iff (r : Seg.row) :
  champion_rule r <->
  fgt (Seg.AVG_SENTIMENT r) (Fin (3 # 10)) && (Seg.TOTAL_ESCALATIONS r =? 0) = true.
Proof.
  unfold champion_rule, Fgt. rewrite andb_true_iff, Nat.eqb_eq. reflexivity.
Qed.

Lemma needs_attention_rule_iff (r : Seg.row) :
  needs_attention_rule r <-> (1 <? Seg.URGENT_EMAILS r) = true.
Proof. unfold needs_attention_rule. rewrite Nat.ltb_lt. reflexivity. Qed.

Lemma at_risk_rule_iff (r : Seg.row) :
  at_risk_rule r <-> at_risk_mask r = true.
Proof.
  unfold at_risk_rule, at_risk_mask, Flt.
  rewrite orb_true_iff, Nat.ltb_lt. reflexivity.
Qed.

(** The code computes a segment that the rule relates to the row. *)
Lemma categorize_customer_sound (r : Seg.row) :
  exists s, categorize_customer r = segment_label s /\ segment_spec r s.
Proof.
  unfold categorize_customer.
  destruct ((2 <? Seg.TOTAL_ESCALATIONS r)
            || flt (Seg.AVG_SENTIMENT r) (Fin (-3 # 10))) eqn:H1.
  { exists HighRisk. split; [reflexivity|].
    apply spec_high_risk, high_risk_rule_iff, H1. }
  assert (N1 : ~ high_risk_rule r)
    by (rewrite high_risk_rule_iff, H1; discriminate).
  destruct (fgt (Seg.AVG_SENTIMENT r) (Fin (3 # 10))
            && (Seg.TOTAL_ESCALATIONS r =? 0)) eqn:H2.
  { exists Champion. split; [reflexivity|].
    apply spec_champion; [exact N1 | apply champion_rule_iff, H2]. }
  assert (N2 : ~ champion_rule r)
    by (rewrite champion_rule_iff, H2; discriminate).
  destruct (1 <? Seg.URGENT_EMAILS r) eqn:H3.
  { exists NeedsAttention. split; [reflexivity|].
    apply spec_needs_attention; [exact N1 | exact N2 |].
    apply needs_attention_rule_iff, H3. }
  exists Standard. split; [reflexivity|].
  apply spec_standard; [exact N1 | exact N2 |].
  rewrite needs_attention_rule_iff, H3. discriminate.
Qed.

(** The rule relates a row to one segment at most. *)
Lemma segment_spec_functional (r : Seg.row) (s t : Segment) :
  segment_spec r s -> segment_spec r t -> s = t.
Proof.
  intros Hs Ht. inversion Hs; inversion Ht; subst;
    solve [reflexivity | contradiction].
Qed.

Lemma categorize_customer_spec (r : Seg.row) (s : Segment) :
  categorize_customer r = segment_label s <-> segment_spec r s.
Proof.
  destruct (categorize_customer_sound r) as (s0 & E & S0).
  split.
  - intro H. rewrite E in H. apply segment_label_inj in H. subst. exact S0.
  - intro H. rewrite E. f_equal. eapply segment_spec_functional; eassumption.
Qed.

(** C1. For every aggregate, the segmentation function follows the four
    rules in order, the first match winning: HighRisk if escalations > 2 or
    average sentiment < -0.3; otherwise Champion if average sentiment > 0.3
    and escalations = 0; otherwise NeedsAttention if urgent count > 1;
    otherwise Standard.  The aggregate with average sentiment 0.5, 0
    escalations and 3 urgent emails is a Champion. *)
Theorem C1_categorize_customer_first_match :
  (forall (r : Seg.row) (s : Segment),
      categorize_customer r = segment_label s <-> segment_spec r s)
  /\ (forall (cid : string) (emails : nat),
         categorize_customer (Seg.mk cid (Fin (5 # 10)) 0 emails 3)
         = segment_label Champion).
Proof.
  split.
  - exact categorize_customer_spec.
  - intros cid emails. reflexivity.
Qed.

(** The five scenarios of the specification, read off the rule. *)
Lemma C1_categorize_customer_witness :
  segment_spec (Seg.mk "C-001" (Fin (-5 # 10)) 0 1 0) HighRisk
  /\ segment_spec (Seg.mk "C-002" (Fin (5 # 10)) 0 4 3) Champion
  /\ segment_spec (Seg.mk "C-003" (Fin 0) 1 3 2) NeedsAttention
  /\ segment_spec (Seg.mk "C-004" (Fin (1 # 10)) 1 2 0) Standard
  /\ segment_spec (Seg.mk "C-005" (Fin (-1 # 10)) 3 3 0) HighRisk.
Proof.
  destruct C1_categorize_customer_first_match as (T & _).
  repeat split; apply T; reflexivity.
Defined.

(** ** Group keys: unique and ascending *)

Section GroupKeys.

Lemma key_lt_trans (a b c : string) : key_lt a b -> key_lt b c -> key_lt a c.
Proof.
  unfold key_lt. intros H1 H2.
  apply String_as_OT.cmp_lt in H1. apply String_as_OT.cmp_lt in H2.
  apply String_as_OT.cmp_lt. eapply String_as_OT.lt_trans; eassumption.
Qed.

Lemma key_lt_irrefl (a : string) : ~ key_lt a a.
Proof.
  unfold key_lt. intro H.
  assert (E : String.compare a a = Eq) by (apply String_as_OT.cmp_eq; reflexivity).
  congruence.
Qed.

Lemma compare_Gt_key_lt (a b : string) : String.compare a b = Gt -> key_lt b a.
Proof.
  unfold key_lt. intro H. rewrite String.compare_antisym, H. reflexivity.
Qed.

Lemma insert_key_In (k x : string) (ks : list string) :
  In x (insert_key k ks) <-> x = k \/ In x ks.
Proof.
  induction ks as [| k' ks IH]; simpl.
  - intuition.
  - destruct (String.compare k k') eqn:C; simpl.
    + apply String.compare_eq_iff in C. subst. intuition.
    + intuition.
    + rewrite IH. intuition.
Qed.

Lemma insert_key_sorted (k : string) (ks : list string) :
  StronglySorted key_lt ks -> StronglySorted key_lt (insert_key k ks).
Proof.
  induction ks as [| k' ks IH]; simpl; intro S.
  - constructor; [constructor | constructor].
  - inversion S as [| ? ? S' F]; subst.
    destruct (String.compare k k') eqn:C.
    + exact S.
    + constructor; [exact S |].
      constructor; [exact C |].
      rewrite Forall_forall in *. intros x Hx.
      eapply key_lt_trans; [exact C | auto].
    + constructor; [auto |].
      rewrite Forall_forall in *. intros x Hx.
      apply insert_key_In in Hx. destruct Hx as [-> | Hx]; [| auto].
      apply compare_Gt_key_lt, C.
Qed.

Lemma sorted_unique_In (x : string) (ks : list string) :
  In x (sorted_unique ks) <-> In x ks.
Proof.
  unfold sorted_unique. induction ks as [| k ks IH]; simpl.
  - reflexivity.
  - rewrite insert_key_In, IH. intuition.
Qed.

Lemma sorted_unique_sorted (ks : list string) :
  StronglySorted key_lt (sorted_unique ks).
Proof.
  unfold sorted_unique. induction ks as [| k ks IH]; simpl.
  - constructor.
  - apply insert_key_sorted, IH.
Qed.

Lemma sorted_NoDup (ks : list string) :
  StronglySorted key_lt ks -> NoDup ks.
Proof.
  induction 1 as [| k ks S IH F]; constructor; [| exact IH].
  intro Hin. rewrite Forall_forall in F.
  exact (key_lt_irrefl k (F k Hin)).
Qed.

(** A selection of the rows of a table sorted on a column stays sorted. *)
Lemma sorted_map_filter {A : Type} (f : A -> string) (p : A -> bool)
      (l : list A) :
  StronglySorted key_lt (map f l) ->
  StronglySorted key_lt (map f (filter p l)).
Proof.
  induction l as [| a l IH]; simpl; intro S.
  - constructor.
  - inversion S as [| ? ? S' F]; subst.
    destruct (p a); simpl; [| auto].
    constructor; [auto |].
    rewrite Forall_forall in *. intros x Hx.
    apply F. apply in_map_iff in Hx. destruct Hx as (y & <- & Hy).
    apply in_map, (proj1 (filter_In p y l) Hy).
Qed.

End GroupKeys.

(** ** The per-customer table *)

Lemma groupby_keys (key : Email.t -> string) (rows : list Email.t) :
  map fst (groupby key rows) = sorted_unique (map key rows).
Proof.
  unfold groupby. rewrite map_map. simpl. apply map_id.
Qed.

Lemma customer_segments_ids (email_data : Frame.t) :
  map Seg.CUSTOMER_ID (customer_segments email_data)
  = sorted_unique (map Email.CUSTOMER_ID (Frame.rows email_data)).
Proof.
  unfold customer_segments. rewrite map_map. simpl.
  rewrite <- groupby_keys. reflexivity.
Qed.

Lemma customer_segments_sorted (email_data : Frame.t) :
  StronglySorted key_lt (map Seg.CUSTOMER_ID (customer_segments email_data)).
Proof. rewrite customer_segments_ids. apply sorted_unique_sorted. Qed.

Lemma customer_segments_NoDup (email_data : Frame.t) :
  NoDup (map Seg.CUSTOMER_ID (customer_segments email_data)).
Proof. apply sorted_NoDup, customer_segments_sorted. Qed.

(** Two rows of a table with one identifier per row are the same row as soon
    as they carry the same identifier. *)
Lemma NoDup_map_inj {A B : Type} (f : A -> B) (l : list A) (x y : A) :
  NoDup (map f l) -> In x l -> In y l -> f x = f y -> x = y.
Proof.
  induction l as [| a l IH]; simpl; intros N Hx Hy E; [contradiction |].
  inversion N as [| ? ? Hn N']; subst.
  destruct Hx as [-> | Hx], Hy as [-> | Hy].
  - reflexivity.
  - exfalso. apply Hn. rewrite E. apply in_map, Hy.
  - exfalso. apply Hn. rewrite <- E. apply in_map, Hx.
  - auto.
Qed.

Lemma at_risk_customers_In (table : list Seg.row) (cid : string) :
  In cid (at_risk_customers table) <->
  exists r, In r table /\ Seg.CUSTOMER_ID r = cid /\ at_risk_rule r.
Proof.
  unfold at_risk_customers. rewrite in_map_iff. split.
  - intros (r & E & H). apply filter_In in H. destruct H as (H & M).
    exists r. repeat split; [exact H | exact E | apply at_risk_rule_iff, M].
  - intros (r & H & E & M). exists r. split; [exact E |].
    apply filter_In. split; [exact H | apply at_risk_rule_iff, M].
Qed.

(** ** Segmentation *)

(** C2. The thresholds are strict: an aggregate whose average sentiment is
    exactly -0.3 does not meet the HighRisk sentiment clause (so with at
    most 2 escalations it is not HighRisk); one whose average sentiment is
    exactly 0.3 does not meet the Champion sentiment clause (so it is never
    a Champion); one with exactly 2 escalations does not meet the HighRisk
    escalation clause (so it is HighRisk only through its sentiment). *)
Theorem C2_thresholds_are_strict :
  (forall (r : Seg.row) (q : Q),
      Seg.AVG_SENTIMENT r = Fin q -> (q == -3 # 10)%Q ->
      ~ Seg.AVG_SENTIMENT r <f Fin (-3 # 10)
      /\ (Seg.TOTAL_ESCALATIONS r <= 2 ->
          categorize_customer r <> segment_label HighRisk))
  /\ (forall (r : Seg.row) (q : Q),
         Seg.AVG_SENTIMENT r = Fin q -> (q == 3 # 10)%Q ->
         ~ Seg.AVG_SENTIMENT r >f Fin (3 # 10)
         /\ categorize_customer r <> segment_label Champion)
  /\ (forall r : Seg.row,
         Seg.TOTAL_ESCALATIONS r = 2 ->
         ~ 2 < Seg.TOTAL_ESCALATIONS r
         /\ (~ Seg.AVG_SENTIMENT r <f Fin (-3 # 10) ->
             categorize_customer r <> segment_label HighRisk)).
Proof.
  split; [| split].
  - intros r q Hq E.
    assert (N : ~ Seg.AVG_SENTIMENT r <f Fin (-3 # 10))
      by (rewrite Hq; apply flt_irrefl_Qeq, E).
    split; [exact N |].
    intros Hesc H. apply categorize_customer_spec in H.
    inversion H as [[L | L] | | |]; [lia | contradiction].
  - intros r q Hq E.
    assert (N : ~ Seg.AVG_SENTIMENT r >f Fin (3 # 10)).
    { rewrite Hq. unfold Fgt, fgt. fold (Flt (Fin (3 # 10)) (Fin q)).
      apply flt_irrefl_Qeq. symmetry. exact E. }
    split; [exact N |].
    intro H. apply categorize_customer_spec in H.
    inversion H as [| ? [L _] | |]. contradiction.
  - intros r E. split; [lia |].
    intros N H. apply categorize_customer_spec in H.
    inversion H as [[L | L] | | |]; [lia | contradiction].
Qed.

(** The three boundary aggregates: (-0.3, 2 escalations) and (0.3, 0
    escalations) are Standard, (0, 2 escalations, 2 urgent) needs
    attention. *)
Lemma C2_thresholds_witness :
  categorize_customer (Seg.mk "C-17" (Fin (-3 # 10)) 2 4 0)
    <> segment_label HighRisk
  /\ categorize_customer (Seg.mk "C-17" (Fin (3 # 10)) 0 4 0)
    <> segment_label Champion
  /\ categorize_customer (Seg.mk "C-17" (Fin 0) 2 4 2)
    <> segment_label HighRisk.
Proof.
  destruct C2_thresholds_are_strict as (T1 & T2 & T3).
  split; [| split].
  - apply (T1 (Seg.mk "C-17" (Fin (-3 # 10)) 2 4 0) (-3 # 10)%Q);
      [reflexivity | reflexivity | simpl; lia].
  - apply (T2 (Seg.mk "C-17" (Fin (3 # 10)) 0 4 0) (3 # 10)%Q);
      reflexivity.
  - apply (T3 (Seg.mk "C-17" (Fin 0) 2 4 2)); [reflexivity |].
    unfold Flt; simpl; discriminate.
Defined.

(** C6. Every aggregate gets exactly one of the four segments: the function
    is total (Standard is the fallback) and no aggregate gets two. *)
Theorem C6_exactly_one_segment (r : Seg.row) :
  exists! s : Segment, categorize_customer r = segment_label s.
Proof.
  destruct (categorize_customer_sound r) as (s & E & _).
  exists s. split; [exact E |].
  intros t Ht. rewrite E in Ht. apply segment_label_inj, Ht.
Qed.

(** ** At-risk selection *)

(** C4. A customer identifier is in the at-risk list if and only if the
    customer's average sentiment is below 0 or the customer's escalations
    exceed 1; so (-0.01, 0 escalations) is in, and (0.5, 2 escalations) is
    in. *)
Theorem C4_at_risk_iff :
  (forall (email_data : Frame.t) (r : Seg.row),
      In r (customer_segments email_data) ->
      (In (Seg.CUSTOMER_ID r) (at_risk_customers (customer_segments email_data))
       <-> at_risk_rule r))
  /\ (forall (table : list Seg.row) (cid : string),
         In cid (at_risk_customers table) <->
         exists r, In r table /\ Seg.CUSTOMER_ID r = cid /\ at_risk_rule r)
  /\ (forall (table : list Seg.row) (r : Seg.row),
         In r table ->
         (Seg.AVG_SENTIMENT r = Fin (-1 # 100) /\ Seg.TOTAL_ESCALATIONS r = 0)
         \/ (Seg.AVG_SENTIMENT r = Fin (5 # 10) /\ Seg.TOTAL_ESCALATIONS r = 2) ->
         In (Seg.CUSTOMER_ID r) (at_risk_customers table)).
Proof.
  split; [| split].
  - intros email_data r Hr. rewrite at_risk_customers_In. split.
    + intros (r' & Hr' & E & M).
      assert (r' = r) as <-; [| exact M].
      eapply NoDup_map_inj; eauto using customer_segments_NoDup.
    + intro M. exists r. auto.
  - apply at_risk_customers_In.
  - intros table r Hr H. apply at_risk_customers_In.
    exists r. split; [exact Hr | split; [reflexivity |]].
    unfold at_risk_rule.
    destruct H as [(-> & ->) | (-> & ->)]; [left; reflexivity | right; lia].
Qed.

(** In the sample, C-002 (mean -0.01, no escalation) and C-003 (two
    escalations) are selected and C-001 is not. *)
Lemma C4_at_risk_witness :
  In "C-002" (at_risk_customers (customer_segments sample_data))
  /\ In "C-003" (at_risk_customers (customer_segments sample_data))
  /\ ~ In "C-001" (at_risk_customers (customer_segments sample_data)).
Proof.
  destruct C4_at_risk_iff as (T & _ & _).
  pose (table := customer_segments sample_data).
  assert (H1 : In (nth 0 table (Seg.mk EmptyString NaN 0 0 0)) table)
    by (vm_compute; tauto).
  assert (H2 : In (nth 1 table (Seg.mk EmptyString NaN 0 0 0)) table)
    by (vm_compute; tauto).
  assert (H3 : In (nth 2 table (Seg.mk EmptyString NaN 0 0 0)) table)
    by (vm_compute; tauto).
  split; [| split].
  - apply (proj2 (T sample_data _ H2)). left. reflexivity.
  - apply (proj2 (T sample_data _ H3)). right. vm_compute. lia.
  - intro H. apply (proj1 (T sample_data _ H1)) in H.
    destruct H as [H | H]; [discriminate H | vm_compute in H; lia].
Defined.

(** C5. The at-risk condition is strictly looser than the HighRisk
    condition: every HighRisk aggregate is at risk, while the aggregate with
    average sentiment -0.1 and no escalation is at risk without being
    HighRisk; so the two lists of customers differ in general. *)
Theorem C5_at_risk_looser_than_high_risk :
  (forall r : Seg.row,
      categorize_customer r = segment_label HighRisk -> at_risk_rule r)
  /\ (forall (cid : string) (emails urgent : nat),
         let r := Seg.mk cid (Fin (-1 # 10)) 0 emails urgent in
         at_risk_rule r /\ categorize_customer r <> segment_label HighRisk)
  /\ (exists table : list Seg.row,
         at_risk_customers table
         <> segment_members (segment_label HighRisk) table).
Proof.
  split; [| split].
  - intros r H. apply categorize_customer_spec in H.
    inversion H as [[L | L] | | |]; unfold at_risk_rule.
    + right. lia.
    + left. apply (flt_trans_Fin _ _ _ L). reflexivity.
  - intros cid emails urgent r. split.
    + left. reflexivity.
    + intro H. apply categorize_customer_spec in H.
      inversion H as [[L | L] | | |]; [simpl in L; lia | discriminate L].
  - exists [Seg.mk "C-002" (Fin (-1 # 10)) 0 1 0].
    vm_compute. discriminate.
Qed.

(** An aggregate with 3 escalations is HighRisk, hence at risk, whatever
    its sentiment. *)
Lemma C5_at_risk_looser_witness :
  at_risk_rule (Seg.mk "C-003" (Fin (1 # 10)) 3 5 0).
Proof.
  apply (proj1 C5_at_risk_looser_than_high_risk). reflexivity.
Defined.

(** ** The order of the at-risk list *)

Lemma existsb_eqb_In (k : string) (l : list string) :
  existsb (String.eqb k) l = true <-> In k l.
Proof.
  rewrite existsb_exists. split.
  - intros (x & Hx & E). apply String.eqb_eq in E. subst. exact Hx.
  - intro H. exists k. split; [exact H | apply String.eqb_refl].
Qed.

Lemma first_occurrences_In (k : string) (ks seen : list string) :
  In k (first_occurrences seen ks) <-> In k ks /\ ~ In k seen.
Proof.
  revert seen. induction ks as [| k' ks IH]; intro seen; simpl.
  - tauto.
  - destruct (existsb (String.eqb k') seen) eqn:E.
    + apply existsb_eqb_In in E. rewrite IH.
      split; [tauto |]. intros ([-> | H] & N); tauto.
    + assert (N' : ~ In k' seen)
        by (rewrite <- existsb_eqb_In, E; discriminate).
      simpl. rewrite IH. simpl.
      destruct (string_dec k' k) as [-> | D]; tauto.
Qed.

Lemma first_occurrences_NoDup (ks seen : list string) :
  NoDup (first_occurrences seen ks).
Proof.
  revert seen. induction ks as [| k ks IH]; intro seen; simpl.
  - constructor.
  - destruct (existsb (String.eqb k) seen); [apply IH |].
    constructor; [| apply IH].
    rewrite first_occurrences_In. simpl. tauto.
Qed.

Lemma at_risk_customers_sorted (email_data : Frame.t) :
  StronglySorted key_lt (at_risk_customers (customer_segments email_data)).
Proof.
  unfold at_risk_customers.
  apply sorted_map_filter, customer_segments_sorted.
Qed.

Lemma at_risk_customers_known (email_data : Frame.t) (k : string) :
  In k (at_risk_customers (customer_segments email_data)) ->
  In k (map Email.CUSTOMER_ID (Frame.rows email_data)).
Proof.
  intro H. apply at_risk_customers_In in H. destruct H as (r & Hr & <- & _).
  apply sorted_unique_In. rewrite <- customer_segments_ids.
  apply in_map, Hr.
Qed.

(** C7, as the specification states it, fails on the sample: C-003 is met
    before C-002 in the record set, and the list puts C-002 first. *)
Lemma C7_encounter_order_counterexample :
  at_risk_in_encounter_order sample_data = ["C-003"; "C-002"]
  /\ at_risk_customers (customer_segments sample_data) = ["C-002"; "C-003"]
  /\ at_risk_customers (customer_segments sample_data)
     <> at_risk_in_encounter_order sample_data.
Proof.
  split; [| split]; [reflexivity | reflexivity |].
  vm_compute. discriminate.
Qed.

(** C7, amended. The at-risk list holds the at-risk customers of the record
    set, each once, in ascending order of customer identifier (the order in
    which the grouping leaves its keys), whatever order the record set shows
    them in. *)
Theorem C7_at_risk_ascending_by_identifier (email_data : Frame.t) :
  StronglySorted key_lt (at_risk_customers (customer_segments email_data))
  /\ Permutation
       (at_risk_customers (customer_segments email_data))
       (at_risk_in_encounter_order email_data).
Proof.
  split; [apply at_risk_customers_sorted |].
  apply NoDup_Permutation.
  - apply sorted_NoDup, at_risk_customers_sorted.
  - unfold at_risk_in_encounter_order. apply NoDup_filter.
    apply first_occurrences_NoDup.
  - intro k. unfold at_risk_in_encounter_order, encounter_order.
    rewrite filter_In, first_occurrences_In, existsb_eqb_In. simpl.
    split; [| tauto].
    intro H. pose proof (at_risk_customers_known _ _ H). tauto.
Qed.

(** ** The per-customer table: one row per customer, none without email *)

Lemma filter_key_nonempty (rows : list Email.t) (k : string) :
  In k (map Email.CUSTOMER_ID rows) ->
  1 <= length (filter (fun r => String.eqb (Email.CUSTOMER_ID r) k) rows).
Proof.
  intro H. apply in_map_iff in H. destruct H as (r & E & Hr).
  assert (Hf : In r (filter (fun r => String.eqb (Email.CUSTOMER_ID r) k) rows)).
  { apply filter_In. split; [exact Hr |]. apply String.eqb_eq, E. }
  destruct (filter _ rows); [contradiction | simpl; lia].
Qed.

Lemma customer_segments_total_emails (email_data : Frame.t) (r : Seg.row) :
  In r (customer_segments email_data) -> 1 <= Seg.TOTAL_EMAILS r.
Proof.
  unfold customer_segments, groupby. rewrite map_map. intro H.
  apply in_map_iff in H. destruct H as (k & <- & Hk).
  apply (proj1 (sorted_unique_In _ _)) in Hk.
  unfold agg, count. simpl. rewrite length_map.
  apply filter_key_nonempty, Hk.
Qed.

(** C10. For every non-empty record set the per-customer table is not
    empty, holds each customer identifier of the record set exactly once,
    and every row of it counts at least one communication; so every row the
    segmentation function is applied to counts at least one. *)
Theorem C10_one_row_per_customer_with_emails (email_data : Frame.t) :
  Frame.rows email_data <> [] ->
  let table := customer_segments email_data in
  table <> []
  /\ NoDup (map Seg.CUSTOMER_ID table)
  /\ (forall cid : string,
         In cid (map Email.CUSTOMER_ID (Frame.rows email_data)) ->
         count_occ string_dec (map Seg.CUSTOMER_ID table) cid = 1)
  /\ (forall cid : string,
         In cid (map Seg.CUSTOMER_ID table) ->
         In cid (map Email.CUSTOMER_ID (Frame.rows email_data)))
  /\ Forall (fun r => 1 <= Seg.TOTAL_EMAILS r) table
  /\ segment_column table = map categorize_customer table.
Proof.
  intros Hne table. subst table.
  assert (Hin : forall cid,
             In cid (map Seg.CUSTOMER_ID (customer_segments email_data))
             <-> In cid (map Email.CUSTOMER_ID (Frame.rows email_data))).
  { intro cid. rewrite customer_segments_ids. apply sorted_unique_In. }
  repeat split.
  - destruct (Frame.rows email_data) as [| e rows] eqn:E; [congruence |].
    intro Hnil.
    assert (H : In (Email.CUSTOMER_ID e)
                   (map Seg.CUSTOMER_ID (customer_segments email_data))).
    { apply Hin. left. reflexivity. }
    rewrite Hnil in H. exact H.
  - apply customer_segments_NoDup.
  - intros cid H.
    apply (proj1 (NoDup_count_occ' string_dec _) (customer_segments_NoDup _)).
    apply Hin, H.
  - intros cid H. apply Hin, H.
  - apply Forall_forall. apply customer_segments_total_emails.
Qed.

Lemma C10_one_row_per_customer_witness :
  map Seg.CUSTOMER_ID (customer_segments sample_data) = ["C-001"; "C-002"; "C-003"]
  /\ Forall (fun r => 1 <= Seg.TOTAL_EMAILS r) (customer_segments sample_data).
Proof.
  split; [reflexivity |].
  apply (C10_one_row_per_customer_with_emails sample_data).
  discriminate.
Defined.

(** ** Rendering only appends *)

Section Appends.

Lemma appends_emit (w : widget) : appends (St.emit w).
Proof. intro log. reflexivity. Qed.

Lemma appends_ret {A : Type} (a : A) : appends (St.ret a).
Proof. intro log. unfold St.ret. simpl. rewrite app_nil_r. reflexivity. Qed.

Lemma appends_lift {A : Type} (r : result A) : appends (St.lift r).
Proof. intro log. unfold St.lift. simpl. rewrite app_nil_r. reflexivity. Qed.

Lemma appends_bind {A B : Type} (m : St.t A) (k : A -> St.t B) :
  appends m -> (forall a, appends (k a)) -> appends (St.bind m k).
Proof.
  intros Hm Hk log. unfold St.bind.
  rewrite (Hm log). destruct (m []) as [[a | e] ws]; simpl.
  - rewrite (Hk a (log ++ ws)), (Hk a ws). simpl.
    rewrite app_assoc. reflexivity.
  - reflexivity.
Qed.

Lemma appends_for_each {A : Type} (xs : list A) (body : A -> St.t unit) :
  (forall x, appends (body x)) -> appends (St.for_each xs body).
Proof.
  intro Hb. induction xs as [| x xs IH]; simpl.
  - apply appends_ret.
  - apply appends_bind; [apply Hb | intros _; exact IH].
Qed.

Lemma appends_try {A : Type} (body : St.t A) (handler : exn -> St.t A) :
  appends body -> (forall e, appends (handler e)) ->
  appends (St.try_except_Exception body handler).
Proof.
  intros Hb Hh log. unfold St.try_except_Exception.
  rewrite (Hb log). destruct (body []) as [[a | e] ws]; simpl.
  - reflexivity.
  - destruct (is_Exception e); [| reflexivity].
    rewrite (Hh e (log ++ ws)), (Hh e ws). simpl.
    rewrite app_assoc. reflexivity.
Qed.

End Appends.

Lemma appends_at_risk_expander (details : Frame.t) (cid : string) :
  appends (at_risk_expander details cid).
Proof.
  unfold at_risk_expander.
  apply appends_bind; [destruct (map _ _); apply appends_ret |].
  intro name. apply appends_bind; [apply appends_lift |].
  intro latest. apply appends_emit.
Qed.

Lemma appends_segmentation_section (email_data : Frame.t) :
  appends (segmentation_section email_data).
Proof.
  unfold segmentation_section, st_markdown, st_warning.
  repeat (apply appends_bind; [apply appends_emit | intros _]).
  destruct (at_risk_customers _); [apply appends_ret |].
  apply appends_bind; [apply appends_emit | intros _].
  apply appends_for_each. intro x. apply appends_at_risk_expander.
Qed.

(** ** The second half of the view returns *)

Lemma for_each_returns {A : Type} (xs : list A) (body : A -> St.t unit) :
  (forall x log, In x xs -> fst (body x log) = Ok tt) ->
  forall log, fst (St.for_each xs body log) = Ok tt.
Proof.
  induction xs as [| x xs IH]; intros Hb log; simpl.
  - reflexivity.
  - unfold St.bind.
    pose proof (Hb x log (or_introl eq_refl)) as Hx.
    destruct (body x log) as [[[] | e] log']; simpl in Hx; [| discriminate Hx].
    apply IH. intros y l Hy. apply Hb. right. exact Hy.
Qed.

Lemma at_risk_expander_returns (email_data : Frame.t) (at_risk : list string)
      (cid : string) (log : list widget) :
  In cid at_risk ->
  In cid (map Email.CUSTOMER_ID (Frame.rows email_data)) ->
  fst (at_risk_expander
         (Frame.select
            (fun r => existsb (String.eqb (Email.CUSTOMER_ID r)) at_risk)
            email_data)
         cid log) = Ok tt.
Proof.
  intros Hrisk Hin. unfold at_risk_expander, Frame.select. simpl.
  apply in_map_iff in Hin. destruct Hin as (r & E & Hr).
  assert (H : In r (filter (fun r => String.eqb (Email.CUSTOMER_ID r) cid)
                      (filter (fun r => existsb (String.eqb (Email.CUSTOMER_ID r))
                                          at_risk)
                              (Frame.rows email_data)))).
  { apply filter_In. split; [| apply String.eqb_eq, E].
    apply filter_In. split; [exact Hr |].
    apply existsb_eqb_In. rewrite E. exact Hrisk. }
  destruct (filter _ (filter _ _)) as [| r0 l]; [contradiction |].
  reflexivity.
Qed.

Lemma In_firstn {A : Type} (n : nat) (l : list A) (x : A) :
  In x (firstn n l) -> In x l.
Proof.
  intro H. rewrite <- (firstn_skipn n l). apply in_or_app. left. exact H.
Qed.

Lemma segmentation_section_returns (email_data : Frame.t) (log : list widget) :
  fst (segmentation_section email_data log) = Ok tt.
Proof.
  unfold segmentation_section, st_markdown, st_warning, St.bind, St.emit.
  destruct (at_risk_customers (customer_segments email_data)) as [| c cs] eqn:E.
  - reflexivity.
  - apply for_each_returns. intros x l Hx.
    apply at_risk_expander_returns.
    + eapply In_firstn. exact Hx.
    + apply at_risk_customers_known. rewrite E.
      eapply In_firstn. exact Hx.
Qed.

(** ** The summary block *)

(** The summary raises only by dividing a Python [int] by a zero length. *)
Lemma summary_data_raises (email_data : Frame.t) (e : exn) :
  summary_data email_data = Raise e ->
  e = ZeroDivisionError
  /\ Frame.rows email_data = []
  /\ Frame.escalation_dtype email_data = dtype_object.
Proof.
  unfold summary_data, Frame.len.
  destruct email_data as [rows d]. simpl.
  destruct rows as [| r rows]; simpl.
  - destruct d; simpl; [discriminate |].
    intro H. inversion H. auto.
  - discriminate.
Qed.

Lemma guarded_raise (body : St.t unit) (e : exn) (log log' : list widget) :
  body log = (Raise e, log') -> is_Exception e = true ->
  guarded body log = (Ok tt, log' ++ [Info fallback_notice]).
Proof.
  intros Hb He. unfold guarded, St.try_except_Exception.
  rewrite Hb, He. reflexivity.
Qed.

Lemma guarded_ok (body : St.t unit) (log log' : list widget) :
  body log = (Ok tt, log') -> guarded body log = (Ok tt, log').
Proof.
  intro Hb. unfold guarded, St.try_except_Exception. rewrite Hb. reflexivity.
Qed.

Lemma ai_summary_block_run (email_data : Frame.t) (log : list widget) :
  ai_summary_block email_data log
  = (Ok tt,
     log ++ [match summary_data email_data with
             | Ok _ => Markdown ai_insights
             | Raise _ => Info fallback_notice
             end]).
Proof.
  unfold ai_summary_block.
  destruct (summary_data email_data) as [s | e] eqn:E.
  - apply guarded_ok. unfold ai_summary_body, St.bind, St.lift.
    rewrite E. reflexivity.
  - apply summary_data_raises in E as H. destruct H as (-> & _ & _).
    apply guarded_raise with (e := ZeroDivisionError); [| reflexivity].
    unfold ai_summary_body, St.bind, St.lift. rewrite E. reflexivity.
Qed.

Lemma show_ai_insights_run (email_data : Frame.t) (log : list widget) :
  show_ai_insights email_data log
  = (Ok tt,
     log ++ [Markdown "## 🤖 AI-Powered Customer Insights";
             Markdown "### 🧠 Executive AI Summary";
             match summary_data email_data with
             | Ok _ => Markdown ai_insights
             | Raise _ => Info fallback_notice
             end]
         ++ snd (segmentation_section email_data [])).
Proof.
  unfold show_ai_insights, st_markdown, St.bind at 1 2 3, St.emit.
  rewrite ai_summary_block_run.
  rewrite (appends_segmentation_section email_data).
  rewrite <- (segmentation_section_returns email_data []).
  f_equal. rewrite <- !app_assoc. reflexivity.
Qed.

(** C3, as the specification states it, fails on the empty record set: the
    summary takes NaN for the mean sentiment (and, on a NumPy sum, for the
    rate), and the block returns to its caller without an error, with the
    mock insights or with the fallback notice. *)
Lemma C3_empty_input_counterexample :
  summary_data (Frame.mk [] dtype_bool) = Ok (mk_summary 0 NaN NaN 0)
  /\ St.run (ai_summary_block (Frame.mk [] dtype_bool))
     = (Ok tt, [Markdown ai_insights])
  /\ St.run (ai_summary_block (Frame.mk [] dtype_object))
     = (Ok tt, [Info fallback_notice])
  /\ ~ raises_to_caller (St.run (ai_summary_block (Frame.mk [] dtype_bool)))
  /\ ~ raises_to_caller (St.run (ai_summary_block (Frame.mk [] dtype_object))).
Proof.
  repeat split; try reflexivity; intros (e & H); discriminate H.
Qed.

(** C3, amended. Over an empty record set the mean sentiment of the
    AI-insights summary is NaN; the rate is NaN too when the escalation sum
    is a NumPy scalar, and when it is a Python integer the division raises,
    which the block's own handler turns into the fallback notice.  Either
    way the block returns normally: no error reaches the caller. *)
Theorem C3_empty_record_set_summary (d : dtype) (log : list widget) :
  mean (map Email.SENTIMENT_SCORE (Frame.rows (Frame.mk [] d))) = NaN
  /\ summary_data (Frame.mk [] d)
     = match d with
       | dtype_bool => Ok (mk_summary 0 NaN NaN 0)
       | dtype_object => Raise ZeroDivisionError
       end
  /\ ai_summary_block (Frame.mk [] d) log
     = (Ok tt,
        log ++ [match d with
                | dtype_bool => Markdown ai_insights
                | dtype_object => Info fallback_notice
                end])
  /\ ~ raises_to_caller (ai_summary_block (Frame.mk [] d) log).
Proof.
  assert (S : summary_data (Frame.mk [] d)
              = match d with
                | dtype_bool => Ok (mk_summary 0 NaN NaN 0)
                | dtype_object => Raise ZeroDivisionError
                end) by (destruct d; reflexivity).
  assert (B : ai_summary_block (Frame.mk [] d) log
              = (Ok tt,
                 log ++ [match d with
                         | dtype_bool => Markdown ai_insights
                         | dtype_object => Info fallback_notice
                         end])).
  { rewrite ai_summary_block_run, S. destruct d; reflexivity. }
  repeat split; [exact S | exact B |].
  intros (e & H). rewrite B in H. discriminate H.
Qed.

(** The dashboard's rate is not guarded: with no email counted, the
    division of one Python integer by another raises. *)
Lemma dashboard_escalation_rate_no_email (customers escalations neg pos : nat) :
  dashboard_escalation_rate (Stats.mk customers 0 escalations neg pos)
  = Raise ZeroDivisionError.
Proof. reflexivity. Qed.

(** C8. When the guarded AI summary raises, the view recovers on the spot
    with the static fallback notice: the error is not propagated, the view
    returns normally, and what it renders afterwards is what it renders when
    the summary succeeds. *)
Theorem C8_ai_failure_recovered_locally :
  (forall (body : St.t unit) (e : exn) (log log' : list widget),
      body log = (Raise e, log') -> is_Exception e = true ->
      guarded body log = (Ok tt, log' ++ [Info fallback_notice]))
  /\ (forall (email_data : Frame.t) (e : exn) (log : list widget),
         summary_data email_data = Raise e ->
         show_ai_insights email_data log
         = (Ok tt,
            log ++ [Markdown "## 🤖 AI-Powered Customer Insights";
                    Markdown "### 🧠 Executive AI Summary";
                    Info fallback_notice]
                ++ snd (segmentation_section email_data [])))
  /\ (forall (email_data : Frame.t) (s : summary) (log : list widget),
         summary_data email_data = Ok s ->
         show_ai_insights email_data log
         = (Ok tt,
            log ++ [Markdown "## 🤖 AI-Powered Customer Insights";
                    Markdown "### 🧠 Executive AI Summary";
                    Markdown ai_insights]
                ++ snd (segmentation_section email_data []))).
Proof.
  split; [exact guarded_raise | split].
  - intros email_data e log E. rewrite show_ai_insights_run, E. reflexivity.
  - intros email_data s log E. rewrite show_ai_insights_run, E. reflexivity.
Qed.

(** A completion call that raises inside the guarded block leaves the
    fallback notice; so does the empty frame whose rate division raises. *)
Lemma C8_ai_failure_witness :
  guarded (St.raise (OtherException "SnowparkSQLException")) []
  = (Ok tt, [Info fallback_notice])
  /\ St.run (show_ai_insights (Frame.mk [] dtype_object))
     = (Ok tt,
        [Markdown "## 🤖 AI-Powered Customer Insights";
         Markdown "### 🧠 Executive AI Summary";
         Info fallback_notice;
         Markdown "### 🎯 AI-Powered Customer Segmentation";
         SegmentCharts [] [];
         Markdown "### 🔮 Predictive Customer Insights"]).
Proof.
  destruct C8_ai_failure_recovered_locally as (T1 & T2 & _).
  split.
  - apply (T1 _ (OtherException "SnowparkSQLException") [] []); reflexivity.
  - unfold St.run.
    rewrite (T2 (Frame.mk [] dtype_object) ZeroDivisionError []); reflexivity.
Defined.

(** ** Customer search *)

(** C9. Whatever the search term, when the warehouse query raises (any
    exception at all), [search_customers] returns an empty table and
    propagates nothing; its caller renders exactly what it renders for a
    query that succeeds with no matching record. *)
Theorem C9_search_failure_is_empty_table
        (session_sql : string -> result Search.frame)
        (search_term : string) (e : exn) :
  session_sql (search_query search_term) = Raise e ->
  search_customers session_sql search_term = Search.pd_DataFrame
  /\ Search.rows (search_customers session_sql search_term) = []
  /\ Search.empty (search_customers session_sql search_term) = true
  /\ (forall (no_match : string -> result Search.frame) (columns : list string),
         no_match (search_query search_term) = Ok (Search.mk columns []) ->
         Search.empty (search_customers no_match search_term) = true
         /\ Search.rows (search_customers no_match search_term)
            = Search.rows (search_customers session_sql search_term)
         /\ forall log : list widget,
             search_section session_sql search_term log
             = search_section no_match search_term log).
Proof.
  intro H.
  assert (E : search_customers session_sql search_term = Search.pd_DataFrame)
    by (unfold search_customers; rewrite H; reflexivity).
  rewrite E.
  split; [reflexivity | split; [reflexivity | split; [reflexivity |]]].
  intros no_match columns Hn.
  assert (E' : search_customers no_match search_term = Search.mk columns [])
    by (unfold search_customers; rewrite Hn; reflexivity).
  rewrite E'. split; [| split; [reflexivity |]].
  - unfold Search.empty. simpl. apply orb_true_r.
  - intro log. unfold search_section. rewrite E, E'.
    destruct search_term; [reflexivity |].
    unfold Search.empty. simpl. rewrite orb_true_r. reflexivity.
Qed.

Lemma C9_search_failure_witness :
  search_customers (fun _ => Raise (SnowparkSQLException "Object does not exist"))
                   "Okafor"
  = Search.pd_DataFrame
  /\ St.run (search_section
               (fun _ => Raise (SnowparkSQLException "Object does not exist"))
               "Okafor")
     = (Ok tt, [Info "No results found. Try different search terms."]).
Proof.
  pose (failing := fun _ : string =>
          @Raise Search.frame (SnowparkSQLException "Object does not exist")).
  destruct (C9_search_failure_is_empty_table
              failing "Okafor" (SnowparkSQLException "Object does not exist")
              eq_refl) as (E & _ & _ & _).
  split; [exact E | reflexivity].
Defined.

(** ** The groups partition the record set *)

Lemma sum_bool_map {A : Type} (f : A -> bool) (l : list A) :
  sum_bool (map f l) = length (filter f l).
Proof.
  unfold sum_bool. induction l as [| a l IH]; simpl; [reflexivity |].
  destruct (f a); simpl; [f_equal |]; exact IH.
Qed.

Lemma urgent_sum_map (rows : list Email.t) :
  urgent_sum (map Email.RESPONSE_URGENCY rows)
  = length (filter (fun r => String.eqb (Email.RESPONSE_URGENCY r) "immediate") rows).
Proof.
  unfold urgent_sum. rewrite map_map. apply sum_bool_map.
Qed.

Lemma filter_length_le' {A : Type} (f : A -> bool) (l : list A) :
  length (filter f l) <= length l.
Proof.
  induction l as [| a l IH]; simpl; [lia |]. destruct (f a); simpl; lia.
Qed.

Lemma list_sum_map_add {A : Type} (f g : A -> nat) (l : list A) :
  list_sum (map (fun x => f x + g x) l)
  = list_sum (map f l) + list_sum (map g l).
Proof. induction l as [| a l IH]; simpl; lia. Qed.

Lemma list_sum_map_zero {A : Type} (l : list A) :
  list_sum (map (fun _ => 0) l) = 0.
Proof. induction l as [| a l IH]; simpl; lia. Qed.

(** Among distinct keys, exactly one equals a key of the list. *)
Lemma indicator_sum (x : string) (ks : list string) :
  NoDup ks -> In x ks ->
  list_sum (map (fun k => if String.eqb x k then 1 else 0) ks) = 1.
Proof.
  induction 1 as [| k ks Hn N IH]; simpl; [contradiction |].
  intros [<- | H].
  - rewrite String.eqb_refl.
    assert (Z : list_sum (map (fun k0 => if String.eqb k k0 then 1 else 0) ks) = 0).
    { clear IH N. induction ks as [| k' ks IH]; simpl; [reflexivity |].
      destruct (String.eqb_spec k k') as [-> | D].
      - exfalso. apply Hn. left. reflexivity.
      - apply IH. intro H. apply Hn. right. exact H. }
    lia.
  - destruct (String.eqb_spec x k) as [-> | D]; [contradiction |].
    simpl. auto.
Qed.

Lemma indicator_sum_absent (x : string) (ks : list string) :
  list_sum (map (fun k => if String.eqb x k then 0 else 0) ks) = 0.
Proof.
  induction ks as [| k ks IH]; simpl; [reflexivity |].
  destruct (String.eqb x k); exact IH.
Qed.

(** Counting inside each group and adding up is counting in the frame. *)
Lemma group_count_sum (key : Email.t -> string) (q : Email.t -> bool)
      (rows : list Email.t) (ks : list string) :
  NoDup ks -> (forall r, In r rows -> In (key r) ks) ->
  list_sum (map (fun k => length (filter q (filter (fun r => String.eqb (key r) k) rows))) ks)
  = length (filter q rows).
Proof.
  intros N. induction rows as [| r rows IH]; intro Hin; simpl.
  - apply list_sum_map_zero.
  - assert (Hr : In (key r) ks) by (apply Hin; left; reflexivity).
    assert (IH' := IH (fun x Hx => Hin x (or_intror Hx))). clear IH.
    transitivity
      (list_sum (map (fun k => (if String.eqb (key r) k
                                then (if q r then 1 else 0) else 0)
                               + length (filter q (filter (fun r0 => String.eqb (key r0) k) rows)))
                     ks)).
    { f_equal. apply map_ext. intro k.
      destruct (String.eqb (key r) k); [| reflexivity].
      simpl. destruct (q r); reflexivity. }
    rewrite list_sum_map_add, IH'.
    destruct (q r); simpl.
    + rewrite (indicator_sum _ _ N Hr). reflexivity.
    + rewrite indicator_sum_absent. reflexivity.
Qed.

Lemma filter_true {A : Type} (l : list A) : filter (fun _ => true) l = l.
Proof. induction l as [| a l IH]; simpl; [| rewrite IH]; reflexivity. Qed.

Lemma customer_segments_column_sum (email_data : Frame.t)
      (column : Seg.row -> nat) (q : Email.t -> bool) :
  (forall g, column (agg g) = length (filter q (snd g))) ->
  list_sum (map column (customer_segments email_data))
  = length (filter q (Frame.rows email_data)).
Proof.
  intro Hc. unfold customer_segments, groupby. rewrite !map_map.
  erewrite map_ext; [| intro k; apply Hc]. simpl.
  apply group_count_sum.
  - apply sorted_NoDup, sorted_unique_sorted.
  - intros r Hr. apply sorted_unique_In. apply in_map, Hr.
Qed.

(** X1. The groups partition the record set: over the per-customer table
    the email counts add up to the number of records, the escalation counts
    to the number of escalated records, and the urgent counts to the number
    of records of immediate urgency. *)
Theorem X1_group_counts_add_up (email_data : Frame.t) :
  let table := customer_segments email_data in
  list_sum (map Seg.TOTAL_EMAILS table) = Frame.len email_data
  /\ list_sum (map Seg.TOTAL_ESCALATIONS table)
     = sum_bool (map Email.ESCALATION_NEEDED (Frame.rows email_data))
  /\ list_sum (map Seg.URGENT_EMAILS table)
     = Frame.len
         (Frame.select
            (fun r => String.eqb (Email.RESPONSE_URGENCY r) "immediate")
            email_data).
Proof.
  simpl. split; [| split].
  - rewrite (customer_segments_column_sum _ _ (fun _ => true)).
    + rewrite filter_true. reflexivity.
    + intro g. unfold agg, count. simpl.
      rewrite length_map, filter_true. reflexivity.
  - rewrite (customer_segments_column_sum _ _ Email.ESCALATION_NEEDED).
    + rewrite sum_bool_map. reflexivity.
    + intro g. unfold agg. simpl. apply sum_bool_map.
  - rewrite (customer_segments_column_sum
               _ _ (fun r => String.eqb (Email.RESPONSE_URGENCY r) "immediate")).
    + reflexivity.
    + intro g. unfold agg. simpl. apply urgent_sum_map.
Qed.

(** X2. In every row of the per-customer table neither the escalation count
    nor the urgent count exceeds the email count. *)
Theorem X2_counts_within_total (email_data : Frame.t) :
  Forall (fun r => Seg.TOTAL_ESCALATIONS r <= Seg.TOTAL_EMAILS r
                   /\ Seg.URGENT_EMAILS r <= Seg.TOTAL_EMAILS r)
         (customer_segments email_data).
Proof.
  apply Forall_forall. intros r Hr.
  unfold customer_segments in Hr. apply in_map_iff in Hr.
  destruct Hr as (g & <- & _). unfold agg, count. simpl.
  rewrite sum_bool_map, urgent_sum_map, length_map.
  split; apply filter_length_le'.
Qed.

(** ** Means stay inside the range of the scores *)








(** ** The table has one row per distinct customer *)

Lemma NoDup_same_length {A : Type} (l1 l2 : list A) :
  NoDup l1 -> NoDup l2 -> (forall x, In x l1 <-> In x l2) ->
  length l1 = length l2.
Proof.
  intros N1 N2 H. apply Permutation_length.
  apply NoDup_Permutation; assumption.
Qed.

(** X4. The number of rows of the per-customer table is the number of
    distinct customer identifiers of the record set, the figure the
    dashboard shows as active customers of the period. *)
Theorem X4_table_length_is_nunique (email_data : Frame.t) :
  length (customer_segments email_data)
  = nunique (map Email.CUSTOMER_ID (Frame.rows email_data)).
Proof.
  rewrite <- (length_map Seg.CUSTOMER_ID), customer_segments_ids.
  unfold nunique, unique. apply NoDup_same_length.
  - apply sorted_NoDup, sorted_unique_sorted.
  - apply first_occurrences_NoDup.
  - intro x. rewrite sorted_unique_In, first_occurrences_In. simpl. tauto.
Qed.

(** ** The counts do not depend on the order of the records *)

(** A strictly ascending list is determined by its members. *)
Lemma sorted_ext (l1 l2 : list string) :
  StronglySorted key_lt l1 -> StronglySorted key_lt l2 ->
  (forall x, In x l1 <-> In x l2) -> l1 = l2.
Proof.
  intro S1. revert l2.
  induction S1 as [| a l1 S1 IH F1]; intros l2 S2 H.
  - destruct l2 as [| b l2]; [reflexivity |].
    exfalso. apply (proj2 (H b)). left. reflexivity.
  - destruct S2 as [| b l2 S2 F2].
    + exfalso. apply (proj1 (H a)). left. reflexivity.
    + rewrite Forall_forall in F1, F2.
      assert (E : a = b).
      { destruct (proj1 (H a) (or_introl eq_refl)) as [E | Ha]; [auto |].
        destruct (proj2 (H b) (or_introl eq_refl)) as [E | Hb]; [auto |].
        exfalso. apply (key_lt_irrefl a).
        eapply key_lt_trans; [apply F1, Hb | apply F2, Ha]. }
      subst b. f_equal. apply IH; [exact S2 |].
      intro x. split; intro Hx.
      * destruct (proj1 (H x) (or_intror Hx)) as [<- | Hx']; [| exact Hx'].
        exfalso. exact (key_lt_irrefl _ (F1 _ Hx)).
      * destruct (proj2 (H x) (or_intror Hx)) as [<- | Hx']; [| exact Hx'].
        exfalso. exact (key_lt_irrefl _ (F2 _ Hx)).
Qed.

Lemma Permutation_filter_length {A : Type} (f : A -> bool) (l l' : list A) :
  Permutation l l' -> length (filter f l) = length (filter f l').
Proof.
  induction 1 as [| x l l' _ IH | x y l | l l' l'' _ IH1 _ IH2]; simpl.
  - reflexivity.
  - destruct (f x); simpl; congruence.
  - destruct (f x), (f y); reflexivity.
  - congruence.
Qed.

Lemma filter_filter_and {A : Type} (f g : A -> bool) (l : list A) :
  filter f (filter g l) = filter (fun x => g x && f x) l.
Proof.
  induction l as [| a l IH]; simpl; [reflexivity |].
  destruct (g a); simpl; [destruct (f a) |]; rewrite IH; reflexivity.
Qed.

(** X5. The customer identifiers and the three counts of the per-customer
    table depend on which records the set holds, not on their order: two
    record sets that are permutations of each other give the same count
    columns. *)
Theorem X5_counts_independent_of_record_order (email_data other : Frame.t) :
  Permutation (Frame.rows email_data) (Frame.rows other) ->
  count_columns (customer_segments email_data)
  = count_columns (customer_segments other).
Proof.
  intro P.
  assert (K : sorted_unique (map Email.CUSTOMER_ID (Frame.rows email_data))
              = sorted_unique (map Email.CUSTOMER_ID (Frame.rows other))).
  { apply sorted_ext; try apply sorted_unique_sorted.
    intro x. rewrite !sorted_unique_In. split; intro Hx.
    - eapply Permutation_in; [apply Permutation_map, P | exact Hx].
    - eapply Permutation_in;
        [apply Permutation_map, Permutation_sym, P | exact Hx]. }
  unfold count_columns, customer_segments, groupby.
  rewrite !map_map, K. apply map_ext. intro k. unfold agg, count. simpl.
  rewrite !sum_bool_map, !urgent_sum_map, !length_map, !filter_filter_and.
  rewrite !(Permutation_filter_length _ _ _ P). reflexivity.
Qed.

Lemma X5_counts_independent_witness :
  count_columns (customer_segments sample_data)
  = count_columns (customer_segments (Frame.mk (rev sample_rows) dtype_object)).
Proof.
  apply X5_counts_independent_of_record_order. simpl. apply Permutation_rev.
Defined.

(** ** The segments partition the customers *)

Lemma segment_label_eqb (s t : Segment) :
  String.eqb (segment_label s) (segment_label t) = true <-> s = t.
Proof.
  rewrite String.eqb_eq. split; [apply segment_label_inj | intros ->; reflexivity].
Qed.

Lemma segment_members_In (segment : string) (table : list Seg.row) (cid : string) :
  In cid (segment_members segment table) <->
  exists r, In r table /\ Seg.CUSTOMER_ID r = cid /\ categorize_customer r = segment.
Proof.
  unfold segment_members. rewrite in_map_iff. split.
  - intros (r & E & H). apply filter_In in H. destruct H as (H & M).
    exists r. repeat split; [exact H | exact E | apply String.eqb_eq, M].
  - intros (r & H & E & M). exists r. split; [exact E |].
    apply filter_In. split; [exact H | apply String.eqb_eq, M].
Qed.

Lemma segment_members_lengths (table : list Seg.row) :
  length (segment_members (segment_label HighRisk) table)
  + length (segment_members (segment_label Champion) table)
  + length (segment_members (segment_label NeedsAttention) table)
  + length (segment_members (segment_label Standard) table)
  = length table.
Proof.
  unfold segment_members. rewrite !length_map.
  induction table as [| r table IH]; [reflexivity |].
  cbn [filter length].
  destruct (categorize_customer_sound r) as (s & -> & _).
  destruct s;
    repeat match goal with
           | |- context [String.eqb (segment_label ?a) (segment_label ?b)] =>
               let v := eval vm_compute in
                          (String.eqb (segment_label a) (segment_label b)) in
               change (String.eqb (segment_label a) (segment_label b)) with v
           end;
    cbn [length]; lia.
Qed.

(** X6. The four segment groups partition the customers of the table: every
    customer is in exactly one group, and the four group sizes add up to the
    number of customers. *)
Theorem X6_segments_partition_customers (email_data : Frame.t) :
  let table := customer_segments email_data in
  list_sum
    (map (fun s => length (segment_members (segment_label s) table))
         [HighRisk; Champion; NeedsAttention; Standard])
  = length table
  /\ (forall r : Seg.row,
         In r table ->
         exists! s : Segment,
           In (Seg.CUSTOMER_ID r) (segment_members (segment_label s) table)).
Proof.
  intro table. subst table. split.
  - rewrite <- (segment_members_lengths (customer_segments email_data)).
    unfold list_sum. cbn [map fold_right]. lia.
  - intros r Hr.
    destruct (categorize_customer_sound r) as (s & E & _).
    exists s. split.
    + apply segment_members_In. exists r. auto.
    + intros t Ht. apply segment_members_In in Ht.
      destruct Ht as (r' & Hr' & Eid & Et).
      assert (r' = r) as ->.
      { eapply NoDup_map_inj; eauto using customer_segments_NoDup. }
      rewrite E in Et. apply segment_label_inj, Et.
Qed.

Lemma X6_segments_partition_witness :
  map (fun s => segment_members (segment_label s) (customer_segments sample_data))
      [HighRisk; Champion; NeedsAttention; Standard]
  = [[]; ["C-001"]; ["C-003"]; ["C-002"]]
  /\ exists! s : Segment,
       In "C-003" (segment_members (segment_label s) (customer_segments sample_data)).
Proof.
  split; [reflexivity |].
  pose (table := customer_segments sample_data).
  assert (H3 : In (nth 2 table (Seg.mk EmptyString NaN 0 0 0)) table)
    by (vm_compute; tauto).
  exact (proj2 (X6_segments_partition_customers sample_data) _ H3).
Defined.

(** ** What the at-risk part of the view renders *)

(** Restricting the frame to the at-risk customers first does not change
    the records found for one of them. *)
Lemma at_risk_details_rows (rows : list Email.t) (at_risk : list string)
      (cid : string) :
  In cid at_risk ->
  filter (fun r => String.eqb (Email.CUSTOMER_ID r) cid)
         (filter (fun r => existsb (String.eqb (Email.CUSTOMER_ID r)) at_risk) rows)
  = filter (fun r => String.eqb (Email.CUSTOMER_ID r) cid) rows.
Proof.
  intro H. rewrite filter_filter_and. apply filter_ext. intro r.
  destruct (String.eqb_spec (Email.CUSTOMER_ID r) cid) as [-> | D].
  - rewrite (proj2 (existsb_eqb_In _ _) H). reflexivity.
  - apply andb_false_r.
Qed.

(** The expander of one at-risk customer, as built from a record. *)
Lemma at_risk_expander_run (email_data : Frame.t) (at_risk : list string)
      (cid : string) (r : Email.t) (rest : list Email.t) (log : list widget) :
  In cid at_risk ->
  filter (fun e => String.eqb (Email.CUSTOMER_ID e) cid) (Frame.rows email_data)
  = r :: rest ->
  at_risk_expander
    (Frame.select (fun e => existsb (String.eqb (Email.CUSTOMER_ID e)) at_risk)
                  email_data)
    cid log
  = (Ok tt,
     log ++ [Expander
               ("🚨 " ++ Email.CUSTOMER_NAME r ++ " (ID: " ++ cid ++ ")")%string
               [ ("**Latest Issue:** " ++ Email.EMAIL_CLASSIFICATION r)%string;
                 ("**Summary:** " ++ Email.EXECUTIVE_SUMMARY r)%string;
                 ("**Recommended Action:** " ++ Email.NEXT_STEPS r)%string ]]).
Proof.
  intros Hin E. unfold at_risk_expander, Frame.select. cbn [Frame.rows].
  rewrite (at_risk_details_rows _ _ _ Hin), E. reflexivity.
Qed.

Lemma for_each_emits {A : Type} (xs : list A) (body : A -> St.t unit)
      (card : A -> widget) :
  (forall x log, In x xs -> body x log = (Ok tt, log ++ [card x])) ->
  forall log, St.for_each xs body log = (Ok tt, log ++ map card xs).
Proof.
  induction xs as [| x xs IH]; intros Hb log; simpl.
  - unfold St.ret. rewrite app_nil_r. reflexivity.
  - unfold St.bind. rewrite (Hb x log (or_introl eq_refl)).
    rewrite IH by (intros y l Hy; apply Hb; right; exact Hy).
    rewrite <- app_assoc. reflexivity.
Qed.

(** X7. The expander of an at-risk customer is built from the customer's
    first record in the record set (the most recent one, as the set is
    loaded): the view never falls back to the name Unknown and never fails
    on a customer without record. *)
Theorem X7_at_risk_card_shows_first_record
        (email_data : Frame.t) (cid : string) (log : list widget) :
  let at_risk := at_risk_customers (customer_segments email_data) in
  In cid at_risk ->
  exists (r : Email.t) (rest : list Email.t),
    filter (fun e => String.eqb (Email.CUSTOMER_ID e) cid) (Frame.rows email_data)
    = r :: rest
    /\ at_risk_expander
         (Frame.select
            (fun e => existsb (String.eqb (Email.CUSTOMER_ID e)) at_risk)
            email_data)
         cid log
       = (Ok tt,
          log ++ [Expander
                    ("🚨 " ++ Email.CUSTOMER_NAME r ++ " (ID: " ++ cid ++ ")")%string
                    [ ("**Latest Issue:** " ++ Email.EMAIL_CLASSIFICATION r)%string;
                      ("**Summary:** " ++ Email.EXECUTIVE_SUMMARY r)%string;
                      ("**Recommended Action:** " ++ Email.NEXT_STEPS r)%string ]]).
Proof.
  intros at_risk Hin.
  pose proof (filter_key_nonempty _ _ (at_risk_customers_known _ _ Hin)) as L.
  destruct (filter (fun e => String.eqb (Email.CUSTOMER_ID e) cid)
                   (Frame.rows email_data)) as [| r rest] eqn:E;
    [simpl in L; lia |].
  exists r, rest. split; [reflexivity |].
  apply at_risk_expander_run with (rest := rest); assumption.
Qed.

Lemma X7_at_risk_card_witness :
  exists (r : Email.t) (rest : list Email.t),
    filter (fun e => String.eqb (Email.CUSTOMER_ID e) "C-003")
           (Frame.rows sample_data)
    = r :: rest
    /\ at_risk_expander
         (Frame.select
            (fun e => existsb (String.eqb (Email.CUSTOMER_ID e))
                        (at_risk_customers (customer_segments sample_data)))
            sample_data)
         "C-003" []
       = (Ok tt,
          [] ++ [Expander
                   ("🚨 " ++ Email.CUSTOMER_NAME r ++ " (ID: " ++ "C-003" ++ ")")%string
                   [ ("**Latest Issue:** " ++ Email.EMAIL_CLASSIFICATION r)%string;
                     ("**Summary:** " ++ Email.EXECUTIVE_SUMMARY r)%string;
                     ("**Recommended Action:** " ++ Email.NEXT_STEPS r)%string ]]).
Proof.
  apply (X7_at_risk_card_shows_first_record sample_data "C-003" []).
  vm_compute. tauto.
Defined.

(** X8. After its two headers and the segment charts, the view renders
    nothing more when no customer is at risk; otherwise one warning that
    counts all the at-risk customers, followed by one expander for each of
    the first five of them, and no more. *)
Theorem X8_at_risk_rendering_shape (email_data : Frame.t) :
  let table := customer_segments email_data in
  let at_risk := at_risk_customers table in
  exists cards : list widget,
    St.run (segmentation_section email_data)
    = (Ok tt,
       [Markdown "### 🎯 AI-Powered Customer Segmentation";
        SegmentCharts table (segment_column table);
        Markdown "### 🔮 Predictive Customer Insights"]
       ++ match at_risk with
          | [] => []
          | _ :: _ =>
              Warning ("⚠️ " ++ str_nat (length at_risk)
                       ++ " customers identified as at-risk for churn")%string
              :: cards
          end)
    /\ length cards = Nat.min 5 (length at_risk)
    /\ Forall (fun w => exists label inner, w = Expander label inner) cards.
Proof.
  intros table at_risk.
  pose (card := fun cid : string =>
          match filter (fun e => String.eqb (Email.CUSTOMER_ID e) cid)
                       (Frame.rows email_data) with
          | r :: _ =>
              Expander
                ("🚨 " ++ Email.CUSTOMER_NAME r ++ " (ID: " ++ cid ++ ")")%string
                [ ("**Latest Issue:** " ++ Email.EMAIL_CLASSIFICATION r)%string;
                  ("**Summary:** " ++ Email.EXECUTIVE_SUMMARY r)%string;
                  ("**Recommended Action:** " ++ Email.NEXT_STEPS r)%string ]
          | [] => Expander EmptyString []
          end).
  exists (map card (firstn 5 at_risk)). split; [| split].
  - unfold St.run, segmentation_section, st_markdown, st_warning,
      St.bind at 1 2 3, St.emit.
    fold table. fold at_risk. cbn [app].
    destruct at_risk as [| c cs] eqn:E; [reflexivity |].
    unfold St.bind.
    rewrite (for_each_emits _ _ card); [reflexivity |].
    intros x l Hx. apply In_firstn in Hx.
    assert (Hin : In x (at_risk_customers (customer_segments email_data)))
      by (fold table; fold at_risk; rewrite E; exact Hx).
    pose proof (filter_key_nonempty _ _ (at_risk_customers_known _ _ Hin)) as L.
    unfold card.
    destruct (filter (fun e => String.eqb (Email.CUSTOMER_ID e) x)
                     (Frame.rows email_data)) as [| r rest] eqn:F;
      [simpl in L; lia |].
    apply at_risk_expander_run with (rest := rest); assumption.
  - rewrite length_map, length_firstn. reflexivity.
  - apply Forall_forall. intros w Hw. apply in_map_iff in Hw.
    destruct Hw as (cid & <- & _). unfold card.
    destruct (filter _ _); eauto.
Qed.

(** ** The summary over a record set that is not empty *)





(** X10. The summary raises in one case only, an empty record set whose
    escalation column has dtype object, and then with a ZeroDivisionError;
    that is also the only case in which the view shows the fallback notice
    in place of the insights. *)
Theorem X10_fallback_only_for_empty_object_frame (email_data : Frame.t) :
  ((exists e : exn, summary_data email_data = Raise e)
   <-> (Frame.rows email_data = []
        /\ Frame.escalation_dtype email_data = dtype_object))
  /\ (forall e : exn, summary_data email_data = Raise e -> e = ZeroDivisionError)
  /\ (forall log : list widget,
         ai_summary_block email_data log = (Ok tt, log ++ [Info fallback_notice])
         <-> (Frame.rows email_data = []
              /\ Frame.escalation_dtype email_data = dtype_object)).
Proof.
  assert (R : (exists e : exn, summary_data email_data = Raise e)
              <-> (Frame.rows email_data = []
                   /\ Frame.escalation_dtype email_data = dtype_object)).
  { split.
    - intros (e & H). apply summary_data_raises in H. tauto.
    - destruct email_data as [rows d]. simpl. intros (-> & ->).
      exists ZeroDivisionError. reflexivity. }
  split; [exact R | split].
  - intros e H. apply summary_data_raises in H. tauto.
  - intro log. rewrite ai_summary_block_run, <- R.
    destruct (summary_data email_data) as [s | e]; split.
    + intro H. injection H as H. apply app_inv_head in H. discriminate H.
    + intros (e & H). discriminate H.
    + intros _. exists e. reflexivity.
    + intros _. reflexivity.
Qed.

Lemma X10_fallback_witness :
  ai_summary_block (Frame.mk [] dtype_object) [] = (Ok tt, [] ++ [Info fallback_notice])
  /\ ai_summary_block sample_data [] <> (Ok tt, [] ++ [Info fallback_notice]).
Proof.
  split.
  - apply (proj2 (X10_fallback_only_for_empty_object_frame (Frame.mk [] dtype_object))).
    split; reflexivity.
  - intro H.
    apply (proj2 (X10_fallback_only_for_empty_object_frame sample_data)) in H.
    destruct H as (H & _). discriminate H.
Defined.

(** ** The rates of the executive dashboard *)



(** ** The priority communications of the dashboard *)

Lemma firstn_short {A : Type} (n : nat) (l : list A) :
  length (firstn n l) < n -> firstn n l = l.
Proof.
  intro H. apply firstn_all2. rewrite length_firstn in H. lia.
Qed.

(** X12. The dashboard lists at most five priority communications; each is
    escalated or of immediate urgency; one shown with the medium class is
    of immediate urgency and not escalated; and when fewer than five are
    shown, no escalated or immediate record of the set is left out. *)
Theorem X12_priority_emails (email_data : Frame.t) :
  length (priority_emails email_data) <= 5
  /\ (forall email : Email.t,
         In email (priority_emails email_data) ->
         In email (Frame.rows email_data)
         /\ (Email.ESCALATION_NEEDED email = true
             \/ Email.RESPONSE_URGENCY email = "immediate")
         /\ (priority_class email = "priority-medium" ->
             Email.ESCALATION_NEEDED email = false
             /\ Email.RESPONSE_URGENCY email = "immediate"))
  /\ (length (priority_emails email_data) < 5 ->
      forall email : Email.t,
        In email (Frame.rows email_data) ->
        priority_mask email = true ->
        In email (priority_emails email_data)).
Proof.
  unfold priority_emails. split; [| split].
  - apply firstn_le_length.
  - intros email H. apply In_firstn, filter_In in H. destruct H as (H & M).
    unfold priority_mask in M. apply orb_true_iff in M.
    rewrite String.eqb_eq in M.
    split; [exact H | split; [exact M |]].
    unfold priority_class. destruct (Email.ESCALATION_NEEDED email).
    + discriminate.
    + intros _. destruct M as [M | M]; [discriminate M | auto].
  - intros L email H M. rewrite (firstn_short _ _ L).
    apply filter_In. auto.
Qed.

Lemma X12_priority_emails_witness :
  map Email.EMAIL_ID (priority_emails sample_data) = ["E-104"; "E-102"]
  /\ forall email : Email.t,
       In email (Frame.rows sample_data) ->
       priority_mask email = true ->
       In email (priority_emails sample_data).
Proof.
  split; [reflexivity |].
  apply (proj2 (proj2 (X12_priority_emails sample_data))).
  vm_compute. lia.
Defined.

(** ** The sidebar filters *)

Lemma fold_min_le (xs : list Z) (x : Z) :
  (fold_left Z.min xs x <= x)%Z
  /\ forall y, In y xs -> (fold_left Z.min xs x <= y)%Z.
Proof.
  revert x. induction xs as [| a xs IH]; intro x; simpl.
  - split; [lia | contradiction].
  - destruct (IH (Z.min x a)) as (H1 & H2). split; [lia |].
    intros y [<- | Hy]; [lia | auto].
Qed.

Lemma fold_max_ge (xs : list Z) (x : Z) :
  (x <= fold_left Z.max xs x)%Z
  /\ forall y, In y xs -> (y <= fold_left Z.max xs x)%Z.
Proof.
  revert x. induction xs as [| a xs IH]; intro x; simpl.
  - split; [lia | contradiction].
  - destruct (IH (Z.max x a)) as (H1 & H2). split; [lia |].
    intros y [<- | Hy]; [lia | auto].
Qed.

Lemma filter_all {A : Type} (f : A -> bool) (l : list A) :
  (forall x, In x l -> f x = true) -> filter f l = l.
Proof.
  induction l as [| a l IH]; intro H; simpl; [reflexivity |].
  rewrite (H a (or_introl eq_refl)). f_equal.
  apply IH. intros x Hx. apply H. right. exact Hx.
Qed.

Section SidebarFacts.

Variable row : Type.
Variable DATE_RECEIVED : row -> Z.

Lemma default_range_covers (r : row) (rs : list row) (x : row) :
  In x (r :: rs) ->
  (series_min (DATE_RECEIVED r) (map DATE_RECEIVED rs) <=? DATE_RECEIVED x)%Z
  && (DATE_RECEIVED x <=? series_max (DATE_RECEIVED r) (map DATE_RECEIVED rs))%Z
  = true.
Proof.
  intro Hx. unfold series_min, series_max.
  destruct (fold_min_le (map DATE_RECEIVED rs) (DATE_RECEIVED r)) as (L1 & L2).
  destruct (fold_max_ge (map DATE_RECEIVED rs) (DATE_RECEIVED r)) as (U1 & U2).
  apply andb_true_iff. rewrite !Z.leb_le.
  destruct Hx as [<- | Hx]; [lia |].
  split; [apply L2 | apply U2]; apply in_map, Hx.
Qed.

End SidebarFacts.

Lemma sentiment_filtered_In {row : Type} (SENTIMENT_CATEGORY : row -> string)
      (sentiment_filter : list string) (email_data : list row) (x : row) :
  In x (sentiment_filtered SENTIMENT_CATEGORY sentiment_filter email_data)
  <-> In x email_data
      /\ (sentiment_filter = [] \/ In (SENTIMENT_CATEGORY x) sentiment_filter).
Proof.
  unfold sentiment_filtered. destruct sentiment_filter as [| c cs].
  - intuition.
  - rewrite filter_In, existsb_eqb_In. intuition discriminate.
Qed.

(** X13. In its starting state the sidebar hides nothing: with the date
    widget left at its default (the first and the last day of the data) and
    a sentiment selection that is empty or holds the category of every
    record, the record set comes out of the filters unchanged. *)
Theorem X13_default_filters_keep_everything
        (row : Type) (DATE_RECEIVED : row -> Z)
        (SENTIMENT_CATEGORY : row -> string)
        (sentiment_filter : list string) (email_data : list row) :
  (sentiment_filter = []
   \/ forall r, In r email_data -> In (SENTIMENT_CATEGORY r) sentiment_filter) ->
  sidebar_filters DATE_RECEIVED SENTIMENT_CATEGORY
                  default_date_input sentiment_filter email_data
  = Ok email_data.
Proof.
  intro Hsel. unfold sidebar_filters.
  assert (D : match email_data with
              | [] => Ok email_data
              | r :: rs =>
                  date_filter DATE_RECEIVED
                    (default_date_input
                       (series_min (DATE_RECEIVED r) (map DATE_RECEIVED rs),
                        series_max (DATE_RECEIVED r) (map DATE_RECEIVED rs)))
                    email_data
              end = Ok email_data).
  { destruct email_data as [| r rs]; [reflexivity |].
    unfold date_filter, default_date_input, tuple_get. cbn [nth_error fst snd].
    f_equal. apply filter_all. apply default_range_covers. }
  rewrite D. f_equal.
  unfold sentiment_filtered. destruct sentiment_filter as [| c cs]; [reflexivity |].
  apply filter_all. intros x Hx. apply existsb_eqb_In.
  destruct Hsel as [Hsel | Hsel]; [discriminate Hsel | auto].
Qed.

Lemma X13_default_filters_witness :
  sidebar_filters (fun e : Z * string => fst e) (fun e : Z * string => snd e)
                  default_date_input
                  ["😊 Positive"; "😐 Neutral"; "😞 Negative"]
                  [(20250623%Z, "😞 Negative"); (20250620%Z, "😊 Positive");
                   (20250621%Z, "😐 Neutral")]
  = Ok [(20250623%Z, "😞 Negative"); (20250620%Z, "😊 Positive");
        (20250621%Z, "😐 Neutral")].
Proof.
  apply X13_default_filters_keep_everything.
  right. intros r H. simpl in H.
  destruct H as [<- | [<- | [<- | []]]]; simpl; tauto.
Defined.

(** X14. A date selection of fewer than two dates makes the filters raise
    an IndexError on any record set that is not empty; on an empty record
    set the date widget is not consulted and the filters return the empty
    set. *)
Theorem X14_incomplete_date_range_raises
        (row : Type) (DATE_RECEIVED : row -> Z)
        (SENTIMENT_CATEGORY : row -> string)
        (date_input : Z * Z -> list Z) (sentiment_filter : list string) :
  (forall email_data : list row,
      email_data <> [] ->
      (forall value, length (date_input value) < 2) ->
      sidebar_filters DATE_RECEIVED SENTIMENT_CATEGORY
                      date_input sentiment_filter email_data
      = Raise IndexError)
  /\ sidebar_filters DATE_RECEIVED SENTIMENT_CATEGORY
                     date_input sentiment_filter []
     = Ok [].
Proof.
  split.
  - intros email_data Hne Hshort.
    destruct email_data as [| r rs]; [congruence |].
    unfold sidebar_filters, date_filter, tuple_get.
    specialize (Hshort (series_min (DATE_RECEIVED r) (map DATE_RECEIVED rs),
                        series_max (DATE_RECEIVED r) (map DATE_RECEIVED rs))).
    destruct (date_input _) as [| a [| b t]]; simpl in *;
      [reflexivity | reflexivity | lia].
  - unfold sidebar_filters, sentiment_filtered.
    destruct sentiment_filter; reflexivity.
Qed.

Lemma X14_incomplete_date_range_witness :
  sidebar_filters (fun e : Z * string => fst e) (fun e : Z * string => snd e)
                  (fun value => [fst value]) []
                  [(20250623%Z, "😞 Negative")]
  = Raise IndexError.
Proof.
  apply (proj1 (X14_incomplete_date_range_raises
                  (Z * string) fst snd (fun value => [fst value]) [])).
  - discriminate.
  - intro value. simpl. lia.
Defined.

(** X15. When the filters return, a record is kept exactly when it is in
    the record set, its day lies between the two selected dates (both
    included), and its category is selected or no category is; the kept
    records stay in the order of the record set.  A third entry of the date
    tuple and beyond is ignored. *)
Theorem X15_filters_keep_exactly_the_selected
        (row : Type) (DATE_RECEIVED : row -> Z)
        (SENTIMENT_CATEGORY : row -> string)
        (date_input : Z * Z -> list Z) (sentiment_filter : list string)
        (r : row) (rs : list row) (first last : Z) (more : list Z) :
  date_input (series_min (DATE_RECEIVED r) (map DATE_RECEIVED rs),
              series_max (DATE_RECEIVED r) (map DATE_RECEIVED rs))
  = first :: last :: more ->
  exists kept : list row,
    sidebar_filters DATE_RECEIVED SENTIMENT_CATEGORY
                    date_input sentiment_filter (r :: rs)
    = Ok kept
    /\ (exists keep : row -> bool, kept = filter keep (r :: rs))
    /\ (forall x : row,
           In x kept <->
           In x (r :: rs)
           /\ (first <= DATE_RECEIVED x <= last)%Z
           /\ (sentiment_filter = []
               \/ In (SENTIMENT_CATEGORY x) sentiment_filter)).
Proof.
  intro Hd. unfold sidebar_filters. rewrite Hd.
  unfold date_filter, tuple_get. cbn [nth_error].
  eexists. split; [reflexivity | split].
  - unfold sentiment_filtered. destruct sentiment_filter as [| c cs].
    + eexists. reflexivity.
    + rewrite filter_filter_and. eexists. reflexivity.
  - intro x. rewrite sentiment_filtered_In, filter_In, andb_true_iff, !Z.leb_le.
    tauto.
Qed.

Lemma X15_filters_witness :
  exists kept : list (Z * string),
    sidebar_filters fst snd (fun _ => [20250620%Z; 20250622%Z]) ["😊 Positive"]
                    [(20250623%Z, "😊 Positive"); (20250620%Z, "😊 Positive");
                     (20250621%Z, "😐 Neutral")]
    = Ok kept
    /\ kept = [(20250620%Z, "😊 Positive")].
Proof.
  destruct (X15_filters_keep_exactly_the_selected
              (Z * string) fst snd (fun _ => [20250620%Z; 20250622%Z])
              ["😊 Positive"] (20250623%Z, "😊 Positive")
              [(20250620%Z, "😊 Positive"); (20250621%Z, "😐 Neutral")]
              20250620%Z 20250622%Z [] eq_refl) as (kept & E & _).
  exists kept. split; [exact E |].
  vm_compute in E. injection E as <-. reflexivity.
Defined.

(** ** The options of the customer selector *)

Lemma key_le_cases (a b : string) : key_le a b <-> a = b \/ key_lt a b.
Proof.
  unfold key_le, key_lt, String.leb.
  destruct (String.compare a b) eqn:C.
  - apply String.compare_eq_iff in C. subst. intuition.
  - intuition.
  - split; [discriminate |]. intros [-> | H]; [| discriminate H].
    exfalso. apply (key_lt_irrefl b). apply compare_Gt_key_lt, C.
Qed.

Lemma key_le_trans (a b c : string) : key_le a b -> key_le b c -> key_le a c.
Proof.
  rewrite !key_le_cases. intros [-> | H1] [-> | H2]; auto.
  right. eapply key_lt_trans; eassumption.
Qed.

Lemma leb_false_key_le (a b : string) : String.leb a b = false -> key_le b a.
Proof.
  intro H. destruct (String.leb_total a b) as [T | T]; [congruence | exact T].
Qed.

Lemma sorted_insert_In (k x : string) (ks : list string) :
  In x (sorted_insert k ks) <-> x = k \/ In x ks.
Proof.
  induction ks as [| k' ks IH]; simpl.
  - intuition.
  - destruct (String.leb k k'); simpl; [intuition |].
    rewrite IH. intuition.
Qed.

Lemma sorted_insert_sorted (k : string) (ks : list string) :
  StronglySorted key_le ks -> StronglySorted key_le (sorted_insert k ks).
Proof.
  induction ks as [| k' ks IH]; simpl; intro S.
  - constructor; constructor.
  - inversion S as [| ? ? S' F]; subst.
    destruct (String.leb k k') eqn:C.
    + constructor; [exact S |].
      constructor; [exact C |].
      rewrite Forall_forall in *. intros x Hx.
      eapply key_le_trans; [exact C | auto].
    + constructor; [auto |].
      rewrite Forall_forall in *. intros x Hx.
      apply sorted_insert_In in Hx. destruct Hx as [-> | Hx]; [| auto].
      apply leb_false_key_le, C.
Qed.

Lemma sorted_insert_NoDup (k : string) (ks : list string) :
  ~ In k ks -> NoDup ks -> NoDup (sorted_insert k ks).
Proof.
  induction ks as [| k' ks IH]; simpl; intros Hn N.
  - constructor; [intros [] | constructor].
  - destruct (String.leb k k').
    + constructor; [exact Hn | exact N].
    + inversion N as [| ? ? Hn' N']; subst.
      constructor; [| apply IH; tauto].
      rewrite sorted_insert_In. intros [-> | H]; tauto.
Qed.

Lemma sorted_In (x : string) (xs : list string) : In x (sorted xs) <-> In x xs.
Proof.
  unfold sorted. induction xs as [| a xs IH]; simpl; [reflexivity |].
  rewrite sorted_insert_In, IH. intuition.
Qed.

Lemma sorted_sorted (xs : list string) : StronglySorted key_le (sorted xs).
Proof.
  unfold sorted. induction xs as [| a xs IH]; simpl;
    [constructor | apply sorted_insert_sorted, IH].
Qed.

Lemma sorted_NoDup_preserved (xs : list string) : NoDup xs -> NoDup (sorted xs).
Proof.
  unfold sorted. induction 1 as [| a xs Hn N IH]; simpl; [constructor |].
  apply sorted_insert_NoDup; [| exact IH].
  fold (sorted xs). rewrite sorted_In. exact Hn.
Qed.

Lemma sorted_strict (l : list string) :
  StronglySorted key_le l -> NoDup l -> StronglySorted key_lt l.
Proof.
  induction 1 as [| a l S IH F]; intro N; [constructor |].
  inversion N as [| ? ? Hn N']; subst.
  constructor; [auto |].
  rewrite Forall_forall in *. intros x Hx.
  destruct (proj1 (key_le_cases a x) (F x Hx)) as [-> | H]; [contradiction | exact H].
Qed.

Lemma customers_In (email_data : Frame.t) (name : string) :
  In name (customers email_data)
  <-> In name (map Email.CUSTOMER_NAME (Frame.rows email_data)).
Proof.
  unfold customers, unique. rewrite sorted_In, first_occurrences_In.
  simpl. tauto.
Qed.

(** X16. The customer selector offers every customer name of the record
    set, each once, in strictly ascending order. *)
Theorem X16_selector_options (email_data : Frame.t) :
  StronglySorted key_lt (customers email_data)
  /\ NoDup (customers email_data)
  /\ (forall name : string,
         In name (customers email_data)
         <-> In name (map Email.CUSTOMER_NAME (Frame.rows email_data))).
Proof.
  unfold customers, unique.
  assert (N : NoDup (sorted (first_occurrences []
                               (map Email.CUSTOMER_NAME (Frame.rows email_data)))))
    by apply sorted_NoDup_preserved, first_occurrences_NoDup.
  split; [| split].
  - apply sorted_strict; [apply sorted_sorted | exact N].
  - exact N.
  - intro name. apply (customers_In email_data name).
Qed.

(** ** The profile of a selected customer *)

Lemma filter_nonempty_iff {A : Type} (f : A -> bool) (l : list A) :
  filter f l <> [] <-> exists x, In x l /\ f x = true.
Proof.
  split.
  - destruct (filter f l) as [| x t] eqn:E; [congruence |].
    intros _. exists x. apply filter_In. rewrite E. left. reflexivity.
  - intros (x & Hx) E. apply filter_In in Hx. rewrite E in Hx. exact Hx.
Qed.

Lemma customer_emails_rows (email_data : Frame.t) (name : string) :
  Frame.rows (customer_emails email_data name)
  = filter (fun r => String.eqb (Email.CUSTOMER_NAME r) name) (Frame.rows email_data).
Proof. reflexivity. Qed.

Lemma customer_profile_named (email_data : Frame.t) (name : string) :
  name <> EmptyString ->
  customer_profile email_data (Some name)
               = match iloc0 (map Email.CUSTOMER_ID
                                  (Frame.rows (customer_emails email_data name))) with
                 | Raise e => Raise e
                 | Ok customer_id =>
                     Ok (Some
                           {| Profile.customer_id := customer_id;
                              Profile.total_communications :=
                                Frame.len (customer_emails email_data name);
                              Profile.avg_sentiment :=
                                mean (map Email.SENTIMENT_SCORE
                                          (Frame.rows (customer_emails email_data name)));
                              Profile.escalations :=
                                series_sum
                                  (Frame.escalation_dtype (customer_emails email_data name))
                                  (map Email.ESCALATION_NEEDED
                                       (Frame.rows (customer_emails email_data name))) |})
                 end.
Proof.
  intro Hne. unfold customer_profile. destruct name; [congruence | reflexivity].
Qed.

(** X17. For a selected name that is not empty, the profile is computed
    when some record carries that name, with at least one communication and
    the customer identifier of the first such record; when no record
    carries it the profile raises an IndexError.  Every option of the
    selector is of the first kind. *)
Theorem X17_profile_of_selected_customer (email_data : Frame.t) (name : string) :
  name <> EmptyString ->
  (In name (customers email_data) ->
   exists (p : Profile.t) (first : Email.t) (rest : list Email.t),
     customer_profile email_data (Some name) = Ok (Some p)
     /\ Frame.rows (customer_emails email_data name) = first :: rest
     /\ Profile.customer_id p = Email.CUSTOMER_ID first
     /\ Profile.total_communications p = S (length rest))
  /\ (~ In name (customers email_data) ->
      customer_profile email_data (Some name) = Raise IndexError).
Proof.
  intro Hne. rewrite (customer_profile_named _ _ Hne).
  rewrite customers_In.
  unfold Frame.len. rewrite customer_emails_rows.
  split.
  - intro H. apply in_map_iff in H. destruct H as (r & E & Hr).
    destruct (filter (fun r => String.eqb (Email.CUSTOMER_NAME r) name)
                     (Frame.rows email_data)) as [| first rest] eqn:F.
    + exfalso. revert F. apply filter_nonempty_iff.
      exists r. split; [exact Hr | apply String.eqb_eq, E].
    + eexists; exists first, rest. simpl. repeat split.
  - intro H.
    destruct (filter (fun r => String.eqb (Email.CUSTOMER_NAME r) name)
                     (Frame.rows email_data)) as [| first rest] eqn:F;
      [reflexivity |].
    exfalso. apply H.
    assert (Hin : In first (filter (fun r => String.eqb (Email.CUSTOMER_NAME r) name)
                              (Frame.rows email_data)))
      by (rewrite F; left; reflexivity).
    apply filter_In in Hin. destruct Hin as (Hin & E).
    apply String.eqb_eq in E. subst name. apply in_map, Hin.
Qed.

Lemma X17_profile_witness :
  (exists (p : Profile.t) (first : Email.t) (rest : list Email.t),
      customer_profile sample_data (Some "Bo Lindqvist") = Ok (Some p)
      /\ Frame.rows (customer_emails sample_data "Bo Lindqvist") = first :: rest
      /\ Profile.customer_id p = Email.CUSTOMER_ID first
      /\ Profile.total_communications p = S (length rest))
  /\ customer_profile sample_data (Some "Dee Moreau") = Raise IndexError.
Proof.
  split.
  - apply (proj1 (X17_profile_of_selected_customer sample_data "Bo Lindqvist"
                    ltac:(discriminate))).
    vm_compute. tauto.
  - apply (proj2 (X17_profile_of_selected_customer sample_data "Dee Moreau"
                    ltac:(discriminate))).
    vm_compute. intuition discriminate.
Defined.



(** ** Sentiment by urgency *)




(** ** What the search view renders *)

(** X20. For a search term that is not empty and a query that returns a
    table with at least one column and one row, the view renders the
    number of rows found, then one expander for each row, in order; for an
    empty term it renders nothing, whatever the warehouse would answer. *)
Theorem X20_search_rendering_shape
        (session_sql : string -> result Search.frame) :
  (forall (search_term : string) (df : Search.frame),
      search_term <> EmptyString ->
      session_sql (search_query search_term) = Ok df ->
      Search.empty df = false ->
      exists cards : list widget,
        St.run (search_section session_sql search_term)
        = (Ok tt,
           Markdown ("### Found " ++ str_nat (length (Search.rows df))
                     ++ " results")%string
           :: cards)
        /\ length cards = length (Search.rows df)
        /\ 1 <= length cards
        /\ Forall (fun w => exists label inner, w = Expander label inner) cards)
  /\ St.run (search_section session_sql EmptyString) = (Ok tt, []).
Proof.
  split; [| reflexivity].
  intros search_term df Hne Hq Hempty.
  pose (card := fun hit : Search.hit =>
          let category := Search.SENTIMENT_CATEGORY hit in
          let sentiment_class :=
            if contains "Positive" category then "sentiment-positive"
            else if contains "Negative" category then "sentiment-negative"
            else "sentiment-neutral" in
          Expander
            ("📧 " ++ Search.CUSTOMER_NAME hit ++ " - "
             ++ Search.EMAIL_CLASSIFICATION hit
             ++ " (" ++ Search.DATE_RECEIVED hit ++ ")")%string
            [ ("**Summary:** " ++ Search.EXECUTIVE_SUMMARY hit)%string;
              ("**Sentiment:** <span class='" ++ sentiment_class ++ "'>"
               ++ category ++ "</span>")%string;
              ("**Customer ID:** " ++ Search.CUSTOMER_ID hit)%string ]).
  exists (map card (Search.rows df)).
  assert (E : search_customers session_sql search_term = df)
    by (unfold search_customers; rewrite Hq; reflexivity).
  split; [| split; [| split]].
  - unfold St.run, search_section. rewrite E, Hempty.
    destruct search_term; [congruence |]. cbn [negb].
    unfold st_markdown, St.bind at 1, St.emit. cbn [app].
    rewrite (for_each_emits _ _ card); [reflexivity |].
    intros hit log _. reflexivity.
  - apply length_map.
  - rewrite length_map. unfold Search.empty in Hempty.
    apply orb_false_iff in Hempty. destruct Hempty as (_ & H).
    apply Nat.eqb_neq in H. lia.
  - apply Forall_forall. intros w Hw. apply in_map_iff in Hw.
    destruct Hw as (hit & <- & _). unfold card. eauto.
Qed.

Lemma X20_search_rendering_witness :
  exists cards : list widget,
    St.run (search_section
              (fun _ => Ok (Search.mk
                              ["EMAIL_ID"; "CUSTOMER_ID"; "CUSTOMER_NAME";
                               "EMAIL_CLASSIFICATION"; "SENTIMENT_CATEGORY";
                               "EXECUTIVE_SUMMARY"; "DATE_RECEIVED"]
                              [Search.mk_hit "E-103" "C-001" "Ann Okafor"
                                 "Compliment" "😊 Positive"
                                 "Praises the delivery team" "2025-06-22"]))
              "Okafor")
    = (Ok tt, Markdown "### Found 1 results" :: cards)
    /\ length cards = 1.
Proof.
  pose (df := Search.mk
                ["EMAIL_ID"; "CUSTOMER_ID"; "CUSTOMER_NAME";
                 "EMAIL_CLASSIFICATION"; "SENTIMENT_CATEGORY";
                 "EXECUTIVE_SUMMARY"; "DATE_RECEIVED"]
                [Search.mk_hit "E-103" "C-001" "Ann Okafor"
                   "Compliment" "😊 Positive"
                   "Praises the delivery team" "2025-06-22"]).
  destruct (proj1 (X20_search_rendering_shape (fun _ => Ok df))
              "Okafor" df ltac:(discriminate) eq_refl eq_refl)
    as (cards & E & L & _).
  exists cards. split; [exact E | exact L].
Defined.
